(** * A verified model of Kedro's dataset catalogs

    This development embeds two modules of the Kedro code base,

    - [kedro/io/old_data_catalog.py]: the name sanitiser [_sub_nonword_chars]
      and the read namespace [_FrozenDatasets];
    - [kedro/io/kedro_data_catalog.py]: the class [KedroDataCatalog],

    and proves the properties their specification states about them.

    Python objects live in a heap and are handled through references, so that
    a copy of an object and an alias of it are different things.  Methods are
    computations in a state monad in which a raised exception keeps the state
    reached when it was raised: Python does not roll anything back. *)

From Equations Require Import Equations.
From Stdlib Require Import Strings.String Strings.Ascii NArith.
From stdpp Require Import gmap strings list fin_maps sorting.

Local Open Scope string_scope.

(** * Python run-time model *)

Module Py.

(** Heap references. *)
Definition loc := positive.

(** The values the catalog passes around: a few immutable literals and
    references to heap objects.  [PyBuiltin a] is the object that reading
    the attribute [a] of an instance yields from its type: its class, its
    own [__dict__], a bound method.  Such an object is the result of a read;
    it is not a dataset and not a dict of the heap. *)
Inductive pyval :=
| PyNone
| PyBool (b : bool)
| PyInt (z : Z)
| PyStr (s : string)
| PyRef (l : loc)
| PyBuiltin (attribute : string).

#[global] Instance pyval_eq_dec : EqDecision pyval.
Proof. solve_decision. Defined.

(** [Version = namedtuple("Version", ["load", "save"])]. *)
Record Version := { load_version : option string; save_version : option string }.

(** What the catalog can observe of a dataset object: its class name, the two
    capability checks the catalog performs, the [_version] attribute, and the
    rest of its attributes, which the catalog never inspects. *)
Record dataset := {
  ds_type : string;               (* type(dataset).__name__ *)
  ds_versioned : bool;            (* isinstance(dataset, AbstractVersionedDataset) *)
  ds_has_confirm : bool;          (* hasattr(dataset, "confirm") *)
  ds_version : option Version;    (* dataset._version *)
  ds_data : pyval                 (* the remaining state of the dataset *)
}.

(** Heap objects: datasets and dicts keyed by strings (insertion ordered). *)
Inductive object :=
| ODataset (d : dataset)
| ODict (items : list (string * pyval)).

(** Exceptions.  The three dataset errors are Kedro's; [AttributeError] and
    [KeyError] are Python's.  [Unsupported op] stands for the [TypeError],
    [ValueError] or [AttributeError] Python raises when [op] is applied to a
    value that does not support it; its message is not modelled.
    [External] is an exception raised by code outside the catalog. *)
Inductive exn :=
| DatasetError (msg : string)
| DatasetNotFoundError (msg : string)
| DatasetAlreadyExistsError (msg : string)
| AttributeError (msg : string)
| KeyError (key : string)
| Unsupported (op : string)
| External (tag : string).

Inductive res (A : Type) :=
| Ok (a : A)
| Raise (e : exn).
Arguments Ok {A} a.
Arguments Raise {A} e.

(** A computation over a state [S]: the final state is returned in both
    outcomes. *)
Definition Eff (S A : Type) : Type := S → res A * S.

Definition ret {S A} (a : A) : Eff S A := λ σ, (Ok a, σ).
Definition bind {S A B} (m : Eff S A) (k : A → Eff S B) : Eff S B :=
  λ σ, match m σ with
       | (Ok a, σ') => k a σ'
       | (Raise e, σ') => (Raise e, σ')
       end.
Definition raise {S A} (e : exn) : Eff S A := λ σ, (Raise e, σ).
Definition get {S} : Eff S S := λ σ, (Ok σ, σ).
Definition gets {S A} (f : S → A) : Eff S A := λ σ, (Ok (f σ), σ).
Definition modify {S} (f : S → S) : Eff S unit := λ σ, (Ok tt, f σ).

(** [for x in l: body(x)]. *)
Fixpoint for_each {S A} (l : list A) (body : A → Eff S unit) : Eff S unit :=
  match l with
  | [] => ret tt
  | x :: l' => bind (body x) (λ _, for_each l' body)
  end.

#[global] Instance eff_ret {S} : MRet (Eff S) := λ A, ret.
#[global] Instance eff_bind {S} : MBind (Eff S) := λ A B k m, bind m k.

(** ** Insertion-ordered dicts *)

(** [d[k]], as an option. *)
Fixpoint od_get {V} (d : list (string * V)) (k : string) : option V :=
  match d with
  | [] => None
  | (k', v) :: d' => if decide (k' = k) then Some v else od_get d' k
  end.

(** [d[k] = v]: an existing key keeps its position, a new key goes last. *)
Fixpoint od_set {V} (d : list (string * V)) (k : string) (v : V) : list (string * V) :=
  match d with
  | [] => [(k, v)]
  | (k', v') :: d' => if decide (k' = k) then (k', v) :: d' else (k', v') :: od_set d' k v
  end.

(** [d.update(other)]. *)
Definition od_update {V} (d other : list (string * V)) : list (string * V) :=
  foldl (λ acc kv, od_set acc kv.1 kv.2) d other.

(** [list(d.keys())]. *)
Definition od_keys {V} (d : list (string * V)) : list string := d.*1.

(** ** Strings *)

(** Truth value of a [str | None]: [None] and the empty string are false. *)
Definition truthy_str (o : option string) : bool :=
  match o with
  | Some s => negb (String.eqb s "")
  | None => false
  end.

(** [s <= t] on [str]: lexicographic on code points, which is the
    lexicographic order of the UTF-8 bytes. *)
Definition str_le (s t : string) : Prop := String.leb s t = true.

#[global] Instance str_le_dec s t : Decision (str_le s t).
Proof. unfold str_le. apply _. Defined.

(** [sorted(l)] for a list of strings.  The order is total and antisymmetric,
    so the sorted list does not depend on the algorithm. *)
Definition sorted (l : list string) : list string := merge_sort str_le l.

(** [sep.join(l)]. *)
Definition join (sep : string) (l : list string) : string := String.concat sep l.

End Py.
Export Py.

(** * Regular expressions: [re.sub] for a pattern [C+] *)

Module Re.
Section Sub.
Context {char : Type}.
(** The character class [C] and the replacement. *)
Variable cls : char → bool.
Variable repl : list char.

(** Where a greedy match of [C*] that starts at the head of [s] ends. *)
Fixpoint match_end (s : list char) : list char :=
  match s with
  | c :: s' => if cls c then match_end s' else s
  | [] => []
  end.

(** [re.sub(C+, repl, s)]: scanning from the left, a character outside [C]
    is copied; at a character of [C] the pattern matches, greedily, up to
    [match_end], the match is replaced, and the scan resumes after it. *)
Equations? sub_plus (s : list char) : list char by wf (List.length s) lt :=
  sub_plus [] := [];
  sub_plus (c :: s') with cls c => {
    | true := repl ++ sub_plus (match_end s');
    | false := c :: sub_plus s' }.
Proof.
  all: simpl; try lia.
  assert (Hend : ∀ t, (List.length (match_end t) ≤ List.length t)%nat).
  { induction t as [|a t IH]; simpl; [lia|]. destruct (cls a); simpl; lia. }
  specialize (Hend s'). lia.
Qed.

(** The decomposition of [s] into its maximal runs of characters that are
    all in [C] or all outside [C], each tagged with its side. *)
Fixpoint runs (s : list char) : list (bool * list char) :=
  match s with
  | [] => []
  | c :: s' =>
      match runs s' with
      | (b, r) :: rs =>
          if Bool.eqb b (cls c) then (b, c :: r) :: rs
          else (cls c, [c]) :: (b, r) :: rs
      | [] => [(cls c, [c])]
      end
  end.

(** [rs] is the decomposition of [s] into maximal runs: the runs make up
    [s], each is non-empty and lies on the side its tag says, and two
    neighbours are on different sides. *)
Fixpoint alternating (rs : list (bool * list char)) : Prop :=
  match rs with
  | (b, _) :: (((b', _) :: _) as rs') => b ≠ b' ∧ alternating rs'
  | _ => True
  end.

Definition is_run (br : bool * list char) : Prop :=
  br.2 ≠ [] ∧ Forall (λ c, cls c = br.1) br.2.

Definition maximal_runs (rs : list (bool * list char)) (s : list char) : Prop :=
  concat (map snd rs) = s ∧ Forall is_run rs ∧ alternating rs.

(** Replace every run inside [C] by [repl], keep the others. *)
Definition replace_runs (rs : list (bool * list char)) : list char :=
  concat (map (λ br : bool * list char, if br.1 then repl else br.2) rs).
End Sub.
End Re.

(** * [kedro/io/old_data_catalog.py] *)

(** ** The characters of a [str]

    A Python [str] is a sequence of code points.  A string of this
    development holds the UTF-8 encoding of a [str], as its string literals
    do: the name [数据] is six bytes and two characters.  [utf8_chars] cuts
    the bytes into the characters, each given by the bytes that encode it. *)

(** The number of bytes of the character whose first byte is [b]. *)
Definition utf8_width (b : ascii) : nat :=
  let n := N_of_ascii b in
  if (n <? 192)%N then 1 else if (n <? 224)%N then 2 else if (n <? 240)%N then 3 else 4.

Equations? utf8_chars (s : list ascii) : list (list ascii) by wf (List.length s) lt :=
  utf8_chars [] := [];
  utf8_chars (b :: s') :=
    (b :: take (pred (utf8_width b)) s') :: utf8_chars (drop (pred (utf8_width b)) s').
Proof. rewrite length_drop. simpl. lia. Qed.

(** The characters of a string, and the string of a sequence of characters. *)
Definition chars (s : string) : list (list ascii) := utf8_chars (list_ascii_of_string s).
Definition str_of_chars (cs : list (list ascii)) : string :=
  string_of_list_ascii (concat cs).

(** A character is whole if it has as many bytes as its first byte says. *)
Definition utf8_whole (c : list ascii) : bool :=
  match c with
  | b :: t => Nat.eqb (List.length t) (pred (utf8_width b))
  | [] => false
  end.

(** The six bits a byte [10xxxxxx] carries. *)
Definition continuation (b : ascii) : option N :=
  let n := N_of_ascii b in
  if ((128 <=? n) && (n <? 192))%N then Some (n - 128)%N else None.

(** The code point of a character, for the bytes that are the UTF-8 encoding
    of one: the shortest encoding of a code point up to [U+10FFFF]. *)
Definition codepoint (c : list ascii) : option N :=
  match c with
  | [b] =>
      let n := N_of_ascii b in
      if (n <? 128)%N then Some n else None
  | [b; b1] =>
      let n := N_of_ascii b in
      if ((192 <=? n) && (n <? 224))%N then
        x1 ← continuation b1;
        let cp := ((n - 192) * 64 + x1)%N in
        if (128 <=? cp)%N then Some cp else None
      else None
  | [b; b1; b2] =>
      let n := N_of_ascii b in
      if ((224 <=? n) && (n <? 240))%N then
        x1 ← continuation b1;
        x2 ← continuation b2;
        let cp := ((n - 224) * 4096 + x1 * 64 + x2)%N in
        if (2048 <=? cp)%N then Some cp else None
      else None
  | [b; b1; b2; b3] =>
      let n := N_of_ascii b in
      if ((240 <=? n) && (n <? 248))%N then
        x1 ← continuation b1;
        x2 ← continuation b2;
        x3 ← continuation b3;
        let cp := ((n - 240) * 262144 + x1 * 4096 + x2 * 64 + x3)%N in
        if ((65536 <=? cp) && (cp <=? 1114111))%N then Some cp else None
      else None
  | _ => None
  end.

(** The code points [c] with [chr(c).isalnum()], as maximal intervals, in
    the Unicode database of CPython 3.11 (Unicode 14.0.0): letters, decimal
    digits and the other characters with a numeric value. *)
Definition alnum_ranges : list (N * N) :=
  [
   (48, 57); (65, 90); (97, 122); (170, 170); (178, 179); (181, 181);
   (185, 186); (188, 190); (192, 214); (216, 246); (248, 705); (710, 721);
   (736, 740); (748, 748); (750, 750); (880, 884); (886, 887); (890, 893);
   (895, 895); (902, 902); (904, 906); (908, 908); (910, 929); (931, 1013);
   (1015, 1153); (1162, 1327); (1329, 1366); (1369, 1369); (1376, 1416);
   (1488, 1514); (1519, 1522); (1568, 1610); (1632, 1641); (1646, 1647);
   (1649, 1747); (1749, 1749); (1765, 1766); (1774, 1788); (1791, 1791);
   (1808, 1808); (1810, 1839); (1869, 1957); (1969, 1969); (1984, 2026);
   (2036, 2037); (2042, 2042); (2048, 2069); (2074, 2074); (2084, 2084);
   (2088, 2088); (2112, 2136); (2144, 2154); (2160, 2183); (2185, 2190);
   (2208, 2249); (2308, 2361); (2365, 2365); (2384, 2384); (2392, 2401);
   (2406, 2415); (2417, 2432); (2437, 2444); (2447, 2448); (2451, 2472);
   (2474, 2480); (2482, 2482); (2486, 2489); (2493, 2493); (2510, 2510);
   (2524, 2525); (2527, 2529); (2534, 2545); (2548, 2553); (2556, 2556);
   (2565, 2570); (2575, 2576); (2579, 2600); (2602, 2608); (2610, 2611);
   (2613, 2614); (2616, 2617); (2649, 2652); (2654, 2654); (2662, 2671);
   (2674, 2676); (2693, 2701); (2703, 2705); (2707, 2728); (2730, 2736);
   (2738, 2739); (2741, 2745); (2749, 2749); (2768, 2768); (2784, 2785);
   (2790, 2799); (2809, 2809); (2821, 2828); (2831, 2832); (2835, 2856);
   (2858, 2864); (2866, 2867); (2869, 2873); (2877, 2877); (2908, 2909);
   (2911, 2913); (2918, 2927); (2929, 2935); (2947, 2947); (2949, 2954);
   (2958, 2960); (2962, 2965); (2969, 2970); (2972, 2972); (2974, 2975);
   (2979, 2980); (2984, 2986); (2990, 3001); (3024, 3024); (3046, 3058);
   (3077, 3084); (3086, 3088); (3090, 3112); (3114, 3129); (3133, 3133);
   (3160, 3162); (3165, 3165); (3168, 3169); (3174, 3183); (3192, 3198);
   (3200, 3200); (3205, 3212); (3214, 3216); (3218, 3240); (3242, 3251);
   (3253, 3257); (3261, 3261); (3293, 3294); (3296, 3297); (3302, 3311);
   (3313, 3314); (3332, 3340); (3342, 3344); (3346, 3386); (3389, 3389);
   (3406, 3406); (3412, 3414); (3416, 3425); (3430, 3448); (3450, 3455);
   (3461, 3478); (3482, 3505); (3507, 3515); (3517, 3517); (3520, 3526);
   (3558, 3567); (3585, 3632); (3634, 3635); (3648, 3654); (3664, 3673);
   (3713, 3714); (3716, 3716); (3718, 3722); (3724, 3747); (3749, 3749);
   (3751, 3760); (3762, 3763); (3773, 3773); (3776, 3780); (3782, 3782);
   (3792, 3801); (3804, 3807); (3840, 3840); (3872, 3891); (3904, 3911);
   (3913, 3948); (3976, 3980); (4096, 4138); (4159, 4169); (4176, 4181);
   (4186, 4189); (4193, 4193); (4197, 4198); (4206, 4208); (4213, 4225);
   (4238, 4238); (4240, 4249); (4256, 4293); (4295, 4295); (4301, 4301);
   (4304, 4346); (4348, 4680); (4682, 4685); (4688, 4694); (4696, 4696);
   (4698, 4701); (4704, 4744); (4746, 4749); (4752, 4784); (4786, 4789);
   (4792, 4798); (4800, 4800); (4802, 4805); (4808, 4822); (4824, 4880);
   (4882, 4885); (4888, 4954); (4969, 4988); (4992, 5007); (5024, 5109);
   (5112, 5117); (5121, 5740); (5743, 5759); (5761, 5786); (5792, 5866);
   (5870, 5880); (5888, 5905); (5919, 5937); (5952, 5969); (5984, 5996);
   (5998, 6000); (6016, 6067); (6103, 6103); (6108, 6108); (6112, 6121);
   (6128, 6137); (6160, 6169); (6176, 6264); (6272, 6276); (6279, 6312);
   (6314, 6314); (6320, 6389); (6400, 6430); (6470, 6509); (6512, 6516);
   (6528, 6571); (6576, 6601); (6608, 6618); (6656, 6678); (6688, 6740);
   (6784, 6793); (6800, 6809); (6823, 6823); (6917, 6963); (6981, 6988);
   (6992, 7001); (7043, 7072); (7086, 7141); (7168, 7203); (7232, 7241);
   (7245, 7293); (7296, 7304); (7312, 7354); (7357, 7359); (7401, 7404);
   (7406, 7411); (7413, 7414); (7418, 7418); (7424, 7615); (7680, 7957);
   (7960, 7965); (7968, 8005); (8008, 8013); (8016, 8023); (8025, 8025);
   (8027, 8027); (8029, 8029); (8031, 8061); (8064, 8116); (8118, 8124);
   (8126, 8126); (8130, 8132); (8134, 8140); (8144, 8147); (8150, 8155);
   (8160, 8172); (8178, 8180); (8182, 8188); (8304, 8305); (8308, 8313);
   (8319, 8329); (8336, 8348); (8450, 8450); (8455, 8455); (8458, 8467);
   (8469, 8469); (8473, 8477); (8484, 8484); (8486, 8486); (8488, 8488);
   (8490, 8493); (8495, 8505); (8508, 8511); (8517, 8521); (8526, 8526);
   (8528, 8585); (9312, 9371); (9450, 9471); (10102, 10131); (11264, 11492);
   (11499, 11502); (11506, 11507); (11517, 11517); (11520, 11557);
   (11559, 11559); (11565, 11565); (11568, 11623); (11631, 11631);
   (11648, 11670); (11680, 11686); (11688, 11694); (11696, 11702);
   (11704, 11710); (11712, 11718); (11720, 11726); (11728, 11734);
   (11736, 11742); (11823, 11823); (12293, 12295); (12321, 12329);
   (12337, 12341); (12344, 12348); (12353, 12438); (12445, 12447);
   (12449, 12538); (12540, 12543); (12549, 12591); (12593, 12686);
   (12690, 12693); (12704, 12735); (12784, 12799); (12832, 12841);
   (12872, 12879); (12881, 12895); (12928, 12937); (12977, 12991);
   (13312, 19903); (19968, 42124); (42192, 42237); (42240, 42508);
   (42512, 42539); (42560, 42606); (42623, 42653); (42656, 42735);
   (42775, 42783); (42786, 42888); (42891, 42954); (42960, 42961);
   (42963, 42963); (42965, 42969); (42994, 43009); (43011, 43013);
   (43015, 43018); (43020, 43042); (43056, 43061); (43072, 43123);
   (43138, 43187); (43216, 43225); (43250, 43255); (43259, 43259);
   (43261, 43262); (43264, 43301); (43312, 43334); (43360, 43388);
   (43396, 43442); (43471, 43481); (43488, 43492); (43494, 43518);
   (43520, 43560); (43584, 43586); (43588, 43595); (43600, 43609);
   (43616, 43638); (43642, 43642); (43646, 43695); (43697, 43697);
   (43701, 43702); (43705, 43709); (43712, 43712); (43714, 43714);
   (43739, 43741); (43744, 43754); (43762, 43764); (43777, 43782);
   (43785, 43790); (43793, 43798); (43808, 43814); (43816, 43822);
   (43824, 43866); (43868, 43881); (43888, 44002); (44016, 44025);
   (44032, 55203); (55216, 55238); (55243, 55291); (63744, 64109);
   (64112, 64217); (64256, 64262); (64275, 64279); (64285, 64285);
   (64287, 64296); (64298, 64310); (64312, 64316); (64318, 64318);
   (64320, 64321); (64323, 64324); (64326, 64433); (64467, 64829);
   (64848, 64911); (64914, 64967); (65008, 65019); (65136, 65140);
   (65142, 65276); (65296, 65305); (65313, 65338); (65345, 65370);
   (65382, 65470); (65474, 65479); (65482, 65487); (65490, 65495);
   (65498, 65500); (65536, 65547); (65549, 65574); (65576, 65594);
   (65596, 65597); (65599, 65613); (65616, 65629); (65664, 65786);
   (65799, 65843); (65856, 65912); (65930, 65931); (66176, 66204);
   (66208, 66256); (66273, 66299); (66304, 66339); (66349, 66378);
   (66384, 66421); (66432, 66461); (66464, 66499); (66504, 66511);
   (66513, 66517); (66560, 66717); (66720, 66729); (66736, 66771);
   (66776, 66811); (66816, 66855); (66864, 66915); (66928, 66938);
   (66940, 66954); (66956, 66962); (66964, 66965); (66967, 66977);
   (66979, 66993); (66995, 67001); (67003, 67004); (67072, 67382);
   (67392, 67413); (67424, 67431); (67456, 67461); (67463, 67504);
   (67506, 67514); (67584, 67589); (67592, 67592); (67594, 67637);
   (67639, 67640); (67644, 67644); (67647, 67669); (67672, 67702);
   (67705, 67742); (67751, 67759); (67808, 67826); (67828, 67829);
   (67835, 67867); (67872, 67897); (67968, 68023); (68028, 68047);
   (68050, 68096); (68112, 68115); (68117, 68119); (68121, 68149);
   (68160, 68168); (68192, 68222); (68224, 68255); (68288, 68295);
   (68297, 68324); (68331, 68335); (68352, 68405); (68416, 68437);
   (68440, 68466); (68472, 68497); (68521, 68527); (68608, 68680);
   (68736, 68786); (68800, 68850); (68858, 68899); (68912, 68921);
   (69216, 69246); (69248, 69289); (69296, 69297); (69376, 69415);
   (69424, 69445); (69457, 69460); (69488, 69505); (69552, 69579);
   (69600, 69622); (69635, 69687); (69714, 69743); (69745, 69746);
   (69749, 69749); (69763, 69807); (69840, 69864); (69872, 69881);
   (69891, 69926); (69942, 69951); (69956, 69956); (69959, 69959);
   (69968, 70002); (70006, 70006); (70019, 70066); (70081, 70084);
   (70096, 70106); (70108, 70108); (70113, 70132); (70144, 70161);
   (70163, 70187); (70272, 70278); (70280, 70280); (70282, 70285);
   (70287, 70301); (70303, 70312); (70320, 70366); (70384, 70393);
   (70405, 70412); (70415, 70416); (70419, 70440); (70442, 70448);
   (70450, 70451); (70453, 70457); (70461, 70461); (70480, 70480);
   (70493, 70497); (70656, 70708); (70727, 70730); (70736, 70745);
   (70751, 70753); (70784, 70831); (70852, 70853); (70855, 70855);
   (70864, 70873); (71040, 71086); (71128, 71131); (71168, 71215);
   (71236, 71236); (71248, 71257); (71296, 71338); (71352, 71352);
   (71360, 71369); (71424, 71450); (71472, 71483); (71488, 71494);
   (71680, 71723); (71840, 71922); (71935, 71942); (71945, 71945);
   (71948, 71955); (71957, 71958); (71960, 71983); (71999, 71999);
   (72001, 72001); (72016, 72025); (72096, 72103); (72106, 72144);
   (72161, 72161); (72163, 72163); (72192, 72192); (72203, 72242);
   (72250, 72250); (72272, 72272); (72284, 72329); (72349, 72349);
   (72368, 72440); (72704, 72712); (72714, 72750); (72768, 72768);
   (72784, 72812); (72818, 72847); (72960, 72966); (72968, 72969);
   (72971, 73008); (73030, 73030); (73040, 73049); (73056, 73061);
   (73063, 73064); (73066, 73097); (73112, 73112); (73120, 73129);
   (73440, 73458); (73648, 73648); (73664, 73684); (73728, 74649);
   (74752, 74862); (74880, 75075); (77712, 77808); (77824, 78894);
   (82944, 83526); (92160, 92728); (92736, 92766); (92768, 92777);
   (92784, 92862); (92864, 92873); (92880, 92909); (92928, 92975);
   (92992, 92995); (93008, 93017); (93019, 93025); (93027, 93047);
   (93053, 93071); (93760, 93846); (93952, 94026); (94032, 94032);
   (94099, 94111); (94176, 94177); (94179, 94179); (94208, 100343);
   (100352, 101589); (101632, 101640); (110576, 110579); (110581, 110587);
   (110589, 110590); (110592, 110882); (110928, 110930); (110948, 110951);
   (110960, 111355); (113664, 113770); (113776, 113788); (113792, 113800);
   (113808, 113817); (119520, 119539); (119648, 119672); (119808, 119892);
   (119894, 119964); (119966, 119967); (119970, 119970); (119973, 119974);
   (119977, 119980); (119982, 119993); (119995, 119995); (119997, 120003);
   (120005, 120069); (120071, 120074); (120077, 120084); (120086, 120092);
   (120094, 120121); (120123, 120126); (120128, 120132); (120134, 120134);
   (120138, 120144); (120146, 120485); (120488, 120512); (120514, 120538);
   (120540, 120570); (120572, 120596); (120598, 120628); (120630, 120654);
   (120656, 120686); (120688, 120712); (120714, 120744); (120746, 120770);
   (120772, 120779); (120782, 120831); (122624, 122654); (123136, 123180);
   (123191, 123197); (123200, 123209); (123214, 123214); (123536, 123565);
   (123584, 123627); (123632, 123641); (124896, 124902); (124904, 124907);
   (124909, 124910); (124912, 124926); (124928, 125124); (125127, 125135);
   (125184, 125251); (125259, 125259); (125264, 125273); (126065, 126123);
   (126125, 126127); (126129, 126132); (126209, 126253); (126255, 126269);
   (126464, 126467); (126469, 126495); (126497, 126498); (126500, 126500);
   (126503, 126503); (126505, 126514); (126516, 126519); (126521, 126521);
   (126523, 126523); (126530, 126530); (126535, 126535); (126537, 126537);
   (126539, 126539); (126541, 126543); (126545, 126546); (126548, 126548);
   (126551, 126551); (126553, 126553); (126555, 126555); (126557, 126557);
   (126559, 126559); (126561, 126562); (126564, 126564); (126567, 126570);
   (126572, 126578); (126580, 126583); (126585, 126588); (126590, 126590);
   (126592, 126601); (126603, 126619); (126625, 126627); (126629, 126633);
   (126635, 126651); (127232, 127244); (130032, 130041); (131072, 173791);
   (173824, 177976); (177984, 178205); (178208, 183969); (183984, 191456);
   (194560, 195101); (196608, 201546)
  ]%N.

(** [chr(cp).isalnum()]. *)
Definition isalnum (cp : N) : bool :=
  existsb (λ r : N * N, (r.1 <=? cp) && (cp <=? r.2))%N alnum_ranges.

(** [\w] on [str]: a character is a word character if it is alphanumeric or
    the underscore.  Bytes that encode no code point do not occur in a
    [str]; they count as no word character. *)
Definition is_word_char (c : list ascii) : bool :=
  match codepoint c with
  | Some cp => isalnum cp || (cp =? 95)%N
  | None => false
  end.

(** [\W]. *)
Definition is_nonword_char (c : list ascii) : bool := negb (is_word_char c).

(** [WORDS_REGEX_PATTERN = re.compile(r"\W+")], given by the class it
    repeats. *)
Definition WORDS_REGEX_PATTERN : list ascii → bool := is_nonword_char.

(** [_sub_nonword_chars(dataset_name) =
     re.sub(WORDS_REGEX_PATTERN, "__", dataset_name)]. *)
Definition _sub_nonword_chars (dataset_name : string) : string :=
  str_of_chars (Re.sub_plus WORDS_REGEX_PATTERN (chars "__") (chars dataset_name)).

(** The sanitised key as the specification words it: every maximal run of
    non-word characters becomes a double underscore. *)
Definition sanitized_key_spec (dataset_name : string) : string :=
  str_of_chars
    (Re.replace_runs (chars "__") (Re.runs is_nonword_char (chars dataset_name))).

(** ** The class [_FrozenDatasets] *)

Module _FrozenDatasets.

(** The instance under consideration is given by its [__dict__]; the heap holds
    the dicts and datasets its attributes refer to. *)
Record state := {
  self__dict__ : gmap string pyval;
  heap : gmap loc object
}.

Definition set__dict__ (f : gmap string pyval → gmap string pyval) (σ : state) : state :=
  {| self__dict__ := f (self__dict__ σ); heap := heap σ |}.
Definition set_heap (f : gmap loc object → gmap loc object) (σ : state) : state :=
  {| self__dict__ := self__dict__ σ; heap := f (heap σ) |}.

(** A constructor argument: another [_FrozenDatasets], given by its
    [__dict__], or a dict of datasets. *)
Inductive collection :=
| CFrozen (other__dict__ : gmap string pyval)
| CDict (items : list (string * pyval)).

(** [{}]: a new dict object. *)
Definition new_dict : Eff state pyval :=
  λ σ, let l := fresh (dom (heap σ)) in
       (Ok (PyRef l), set_heap (insert l (ODict [])) σ).

(** The class defines neither [__getattribute__] nor [__getattr__], so an
    attribute is read by [object.__getattribute__], which looks at the type
    before and after the [__dict__] of the instance (CPython 3.11).

    The attributes the type gives through a data descriptor are read from
    the type whatever [__dict__] holds: the class, the [__dict__] itself,
    and the list of weak references, which is [None]. *)
Definition data_descriptors : list (string * pyval) :=
  [("__class__", PyBuiltin "__class__"); ("__dict__", PyBuiltin "__dict__");
   ("__weakref__", PyNone)].

(** The other attributes of the type are read when [__dict__] has no entry
    of the name: the docstring and the module of the class, the methods the
    class defines, and the methods of [object]. *)
Definition class_attributes : list (string * pyval) :=
  [("__doc__", PyStr "Helper class to access underlying loaded datasets.");
   ("__module__", PyStr "kedro.io.old_data_catalog")]
  ++ ((λ method, (method, PyBuiltin method)) <$>
      ["__init__"; "__setattr__"; "_ipython_key_completions_"; "__getitem__";
       "__repr__";
       "__delattr__"; "__dir__"; "__eq__"; "__format__"; "__ge__";
       "__getattribute__"; "__getstate__"; "__gt__"; "__hash__";
       "__init_subclass__"; "__le__"; "__lt__"; "__ne__"; "__new__";
       "__reduce__"; "__reduce_ex__"; "__sizeof__"; "__str__";
       "__subclasshook__"]).

(** [getattr(o, key)] for a [_FrozenDatasets] [o] whose [__dict__] is [d]. *)
Definition getattr (d : gmap string pyval) (key : string) : Eff state pyval :=
  match od_get data_descriptors key with
  | Some v => ret v
  | None =>
      match d !! key with
      | Some v => ret v
      | None =>
          match od_get class_attributes key with
          | Some v => ret v
          | None => raise (AttributeError
                             ("'_FrozenDatasets' object has no attribute '"
                              ++ key ++ "'"))
          end
      end
  end.

(** The items of the dict [v] refers to; [op] names the dict operation that
    fails when [v] is not a dict. *)
Definition dict_items (op : string) (v : pyval) : Eff state (list (string * pyval)) :=
  λ σ, match v with
       | PyRef l =>
           match heap σ !! l with
           | Some (ODict items) => (Ok items, σ)
           | _ => (Raise (Unsupported op), σ)
           end
       | _ => (Raise (Unsupported op), σ)
       end.

(** [target[k] = v]. *)
Definition dict_setitem (target : pyval) (k : string) (v : pyval) : Eff state unit :=
  items ← dict_items "__setitem__" target;
  match target with
  | PyRef l => modify (set_heap (insert l (ODict (od_set items k v))))
  | _ => raise (Unsupported "__setitem__")
  end.

(** [target.update(other)]: [other] is a dict or an iterable of pairs; the
    only iterable among the values modelled that yields no offending element
    is the empty string. *)
Definition dict_update (target other : pyval) : Eff state unit :=
  items ← dict_items "update" target;
  new ← (match other with
         | PyStr "" => ret []
         | _ => dict_items "update" other
         end);
  match target with
  | PyRef l => modify (set_heap (insert l (ODict (od_update items new))))
  | _ => raise (Unsupported "update")
  end.

(** [__setattr__(self, key, value)]. *)
Definition __setattr__ (key : string) (value : pyval) : Eff state unit :=
  if decide (key = "_original_names") then
    (* super().__setattr__(key, value) *)
    modify (set__dict__ (insert key value))
  else
    d ← gets self__dict__;
    let msg := "Operation not allowed! " in
    let msg := if decide (key ∈ dom d)
               then msg ++ "Please change datasets through configuration."
               else msg ++ "Please use DataCatalog.add() instead." in
    raise (AttributeError msg).

(** The two messages [__setattr__] can build. *)
Definition msg_present : string :=
  "Operation not allowed! Please change datasets through configuration.".
Definition msg_absent : string :=
  "Operation not allowed! Please use DataCatalog.add() instead.".

(** The class does not define [__delattr__]: [del self.key] is
    [object.__delattr__] (CPython 3.11).  The three data descriptors of the
    type decide first: [__class__] cannot be deleted (a [TypeError]),
    [__weakref__] is not writable, and deleting [__dict__] empties it.  Any
    other key is removed from [__dict__] if it is there. *)
Definition __delattr__ (key : string) : Eff state unit :=
  d ← gets self__dict__;
  if decide (key = "__class__") then raise (Unsupported "__delattr__")
  else if decide (key = "__weakref__") then
    raise (AttributeError
             "attribute '__weakref__' of '_FrozenDatasets' objects is not writable")
  else if decide (key = "__dict__") then modify (set__dict__ (λ _, ∅))
  else if decide (key ∈ dom d) then modify (set__dict__ (delete key))
  else raise (AttributeError
                ("'_FrozenDatasets' object has no attribute '" ++ key ++ "'")).

(** The body of the loop over a dict collection. *)
Definition register (item : string * pyval) : Eff state unit :=
  let '(dataset_name, dataset) := item in
  modify (set__dict__ (insert (_sub_nonword_chars dataset_name) dataset));;
  d ← gets self__dict__;
  names ← getattr d "_original_names";
  dict_setitem names dataset_name (PyStr "").

(** The body of the loop over the collections. *)
Definition merge (c : collection) : Eff state unit :=
  match c with
  | CFrozen other =>
      (* self.__dict__.update(collection.__dict__) *)
      modify (set__dict__ (λ d, other ∪ d));;
      (* self._original_names.update(collection._original_names) *)
      d ← gets self__dict__;
      names ← getattr d "_original_names";
      dict_items "update" names;;
      other_names ← getattr other "_original_names";
      dict_update names other_names
  | CDict items => for_each items register
  end.

(** [__init__(self, *datasets_collections)]. *)
Definition __init__ (datasets_collections : list collection) : Eff state unit :=
  names ← new_dict;
  __setattr__ "_original_names" names;;
  for_each datasets_collections merge.

(** The call [_FrozenDatasets(c1, ..., cn)] evaluated in the heap [h]: the
    outcome of [__init__] on a new instance. *)
Definition construct (datasets_collections : list collection) (h : gmap loc object)
  : res unit * state :=
  __init__ datasets_collections {| self__dict__ := ∅; heap := h |}.

(** [_ipython_key_completions_(self)]. *)
Definition _ipython_key_completions_ : Eff state (list string) :=
  d ← gets self__dict__;
  names ← getattr d "_original_names";
  items ← dict_items "keys" names;
  ret (od_keys items).

(** [__getitem__(self, key)]. *)
Definition __getitem__ (key : string) : Eff state pyval :=
  d ← gets self__dict__;
  match d !! _sub_nonword_chars key with
  | Some v => ret v
  | None => raise (KeyError (_sub_nonword_chars key))
  end.

(** [self.key]: the class does not override [__getattribute__]. *)
Definition __getattribute__ (key : string) : Eff state pyval :=
  d ← gets self__dict__;
  getattr d key.

(** ** Vocabulary of the statements about construction from a dict *)

(** The attributes and the names after the loop over the items of a dict. *)
Definition dict_after (items : list (string * pyval)) (d : gmap string pyval)
  : gmap string pyval :=
  foldl (λ d kv, <[_sub_nonword_chars kv.1 := kv.2]> d) d items.

Definition names_after (items names : list (string * pyval)) : list (string * pyval) :=
  foldl (λ n kv, od_set n kv.1 (PyStr "")) names items.

End _FrozenDatasets.

(** * [kedro/io/kedro_data_catalog.py] *)

Module KedroDataCatalog.

(** A dataset configuration: [dict[str, Any]]. *)
Definition config := list (string * pyval).

(** The attributes of the catalog instance, the records its logger has
    received (level and message, oldest first), and the heap. *)
Record catalog := {
  _datasets : gmap string loc;
  _config : gmap string config;
  _resolved_ds_configs : gmap string config;
  _load_versions : list (string * string);
  _save_version : option string;
  _logger : list (string * string);
  heap : gmap loc object
}.

Definition set_datasets (f : gmap string loc → gmap string loc) (c : catalog) : catalog :=
  {| _datasets := f (_datasets c); _config := _config c;
     _resolved_ds_configs := _resolved_ds_configs c;
     _load_versions := _load_versions c; _save_version := _save_version c;
     _logger := _logger c; heap := heap c |}.
Definition set_resolved_ds_configs
    (f : gmap string config → gmap string config) (c : catalog) : catalog :=
  {| _datasets := _datasets c; _config := _config c;
     _resolved_ds_configs := f (_resolved_ds_configs c);
     _load_versions := _load_versions c; _save_version := _save_version c;
     _logger := _logger c; heap := heap c |}.
Definition set_load_versions (v : list (string * string)) (c : catalog) : catalog :=
  {| _datasets := _datasets c; _config := _config c;
     _resolved_ds_configs := _resolved_ds_configs c;
     _load_versions := v; _save_version := _save_version c;
     _logger := _logger c; heap := heap c |}.
Definition set_save_version (v : option string) (c : catalog) : catalog :=
  {| _datasets := _datasets c; _config := _config c;
     _resolved_ds_configs := _resolved_ds_configs c;
     _load_versions := _load_versions c; _save_version := v;
     _logger := _logger c; heap := heap c |}.
Definition set_heap (f : gmap loc object → gmap loc object) (c : catalog) : catalog :=
  {| _datasets := _datasets c; _config := _config c;
     _resolved_ds_configs := _resolved_ds_configs c;
     _load_versions := _load_versions c; _save_version := _save_version c;
     _logger := _logger c; heap := f (heap c) |}.

(** [self._logger.log(level, message)]. *)
Definition log (level message : string) : Eff catalog unit :=
  modify (λ c,
    {| _datasets := _datasets c; _config := _config c;
       _resolved_ds_configs := _resolved_ds_configs c;
       _load_versions := _load_versions c; _save_version := _save_version c;
       _logger := _logger c ++ [(level, message)]; heap := heap c |}).

(** A new object. *)
Definition alloc (o : object) : Eff catalog loc :=
  λ c, let l := fresh (dom (heap c)) in (Ok l, set_heap (insert l o) c).

(** The code the class calls that lies outside the two files: the rest of the
    base class [AbstractDataCatalog], the dataset classes and two logging
    helpers.  The catalog is verified against any implementation of them. *)
Class Externals := {
  (** [AbstractDataCatalog.__init__(self, datasets, config, credentials)] *)
  super__init__ : option (list (string * loc)) → option (list (string * config)) →
                  option (list (string * config)) → Eff catalog unit;
  (** [AbstractDataCatalog.match_pattern(self, ds_name)]: the name of a
      pattern that matches, or [None] *)
  match_pattern : catalog → string → option string;
  (** the configuration a name that is not cached resolves to, from the
      explicit configuration or the pattern matcher, or [None] *)
  resolve_config : catalog → string → option config;
  (** the message of the [DatasetNotFoundError] for a name, with or without
      suggestions *)
  not_found_message : catalog → string → bool → string;
  (** [AbstractDataset.from_config(name, config, load_version, save_version)] *)
  from_config : string → config → option string → option string → Eff catalog loc;
  (** [dataset.confirm()], for a dataset that has the method *)
  dataset_confirm : loc → Eff catalog unit;
  (** [dataset.load()], for a dataset that is not a [MemoryDataset] *)
  external_load : loc → Eff catalog pyval;
  (** [kedro.logging._has_rich_handler(self._logger)] *)
  _has_rich_handler : bool;
  (** [kedro.logging._format_rich(value, markup)] *)
  _format_rich : string → string → string
}.

Section Methods.
Context `{Externals}.

(** [isinstance(v, AbstractDataset)]. *)
Definition is_dataset (h : gmap loc object) (v : pyval) : option loc :=
  match v with
  | PyRef l => match h !! l with Some (ODataset _) => Some l | _ => None end
  | _ => None
  end.

(** [isinstance(dataset, AbstractVersionedDataset)]. *)
Definition is_versioned (h : gmap loc object) (dataset : loc) : bool :=
  match h !! dataset with Some (ODataset d) => ds_versioned d | _ => false end.

(** [hasattr(dataset, "confirm")]. *)
Definition has_confirm (h : gmap loc object) (dataset : loc) : bool :=
  match h !! dataset with Some (ODataset d) => ds_has_confirm d | _ => false end.

(** [key in self._config or self.match_pattern(key)]. *)
Definition is_known (c : catalog) (key : string) : bool :=
  bool_decide (key ∈ dom (_config c)) || truthy_str (match_pattern c key).

(** The list [missing_keys] of [_validate_missing_keys]. *)
Definition missing_keys (c : catalog) : list string :=
  filter (λ key, ¬ is_known c key) (od_keys (_load_versions c)).

Definition missing_keys_message (keys : list string) : string :=
  "'load_versions' keys [" ++ join ", " (sorted keys)
  ++ "] are not found in the catalog.".

(** [_validate_missing_keys(self)]. *)
Definition _validate_missing_keys : Eff catalog unit :=
  c ← get;
  match missing_keys c with
  | [] => mret tt
  | _ :: _ => raise (DatasetNotFoundError (missing_keys_message (missing_keys c)))
  end.

(** [__init__(self, datasets, config, credentials, load_versions, save_version)]
    on a new instance. *)
Definition __init__ (datasets : option (list (string * loc)))
    (config credentials : option (list (string * config)))
    (load_versions : option (list (string * string)))
    (save_version : option string) : Eff catalog unit :=
  modify (set_load_versions (default [] load_versions));;
  modify (set_save_version save_version);;
  super__init__ datasets config credentials;;
  _validate_missing_keys.

(** [_init_dataset(self, ds_name, config)]. *)
Definition _init_dataset (ds_name : string) (cfg : config) : Eff catalog unit :=
  c ← get;
  dataset ← from_config ds_name cfg (od_get (_load_versions c) ds_name) (_save_version c);
  modify (set_datasets (insert ds_name dataset)).

(** Modelled from the spec: [AbstractDataCatalog.get_dataset], the base-class
    lookup, is not in these files.  It returns the cached dataset if there is
    one; otherwise it resolves the name through the explicit configuration or
    the pattern matcher, materialises the dataset with [_init_dataset], caches
    and returns it; it fails with [DatasetNotFoundError] if nothing matches. *)
Definition super_get_dataset (ds_name : string) (suggest : bool) : Eff catalog loc :=
  c ← get;
  match _datasets c !! ds_name with
  | Some dataset => mret dataset
  | None =>
      match resolve_config c ds_name with
      | Some cfg =>
          _init_dataset ds_name cfg;;
          c' ← get;
          match _datasets c' !! ds_name with
          | Some dataset => mret dataset
          | None => raise (KeyError ds_name)
          end
      | None => raise (DatasetNotFoundError (not_found_message c ds_name suggest))
      end
  end.

Definition with_version (d : dataset) (version : Version) : dataset :=
  {| ds_type := ds_type d; ds_versioned := ds_versioned d;
     ds_has_confirm := ds_has_confirm d; ds_version := Some version;
     ds_data := ds_data d |}.

(** Modelled from the spec: [AbstractDataset._copy] is not in these files.
    [dataset._copy(_version=version)] returns a shallow copy of the dataset, a
    new object, whose version is the one supplied. *)
Definition _copy (dataset : loc) (version : Version) : Eff catalog loc :=
  h ← gets heap;
  match h !! dataset with
  | Some (ODataset d) => alloc (ODataset (with_version d version))
  | _ => raise (Unsupported "_copy")
  end.

(** [get_dataset(self, ds_name, suggest, version)].  A [Version] is a named
    tuple of two fields, hence true as a condition whatever its fields. *)
Definition get_dataset (ds_name : string) (suggest : bool) (version : option Version)
  : Eff catalog loc :=
  dataset ← super_get_dataset ds_name suggest;
  h ← gets heap;
  match version with
  | Some v => if is_versioned h dataset then _copy dataset v else mret dataset
  | None => mret dataset
  end.

Definition already_registered_message (ds_name : string) : string :=
  "Dataset '" ++ ds_name ++ "' has already been registered".

(** [add(self, ds_name, dataset, replace)]. *)
Definition add (ds_name : string) (dataset : loc) (replace : bool) : Eff catalog unit :=
  c ← get;
  (if decide (ds_name ∈ dom (_datasets c)) then
     if replace then log "WARNING" ("Replacing dataset '" ++ ds_name ++ "'")
     else raise (DatasetAlreadyExistsError (already_registered_message ds_name))
   else mret tt);;
  modify (set_datasets (insert ds_name dataset));;
  modify (set_resolved_ds_configs (insert ds_name [])).

(** Modelled from the spec: the class [MemoryDataset] is not in these files.
    [MemoryDataset(data=value)] is a new in-memory dataset that holds the
    value; it is not version-aware and has no [confirm]. *)
Definition memory_dataset (data : pyval) : dataset :=
  {| ds_type := "MemoryDataset"; ds_versioned := false; ds_has_confirm := false;
     ds_version := None; ds_data := data |}.
(** Modelled from the spec: the constructor call [MemoryDataset(data=value)]
    of that class. *)
Definition MemoryDataset (data : pyval) : Eff catalog loc :=
  alloc (ODataset (memory_dataset data)).

(** The body of the loop of [add_from_dict]. *)
Definition add_entry (replace : bool) (entry : string * pyval) : Eff catalog unit :=
  let '(ds_name, value) := entry in
  h ← gets heap;
  dataset ← (match is_dataset h value with
             | Some dataset => mret dataset
             | None => MemoryDataset value
             end);
  add ds_name dataset replace.

(** [add_from_dict(self, datasets, replace)]; [datasets] is given by its
    items, in iteration order. *)
Definition add_from_dict (datasets : list (string * pyval)) (replace : bool)
  : Eff catalog unit :=
  for_each datasets (add_entry replace).

(** Modelled from the spec: [dataset.load()].  An in-memory dataset returns
    the value it holds; the other dataset classes are external. *)
Definition dataset_load (dataset : loc) : Eff catalog pyval :=
  h ← gets heap;
  match h !! dataset with
  | Some (ODataset d) =>
      if decide (ds_type d = "MemoryDataset") then mret (ds_data d)
      else external_load dataset
  | _ => raise (Unsupported "load")
  end.

(** [type(dataset).__name__]. *)
Definition type_name (h : gmap loc object) (dataset : loc) : string :=
  match h !! dataset with
  | Some (ODataset d) => ds_type d
  | Some (ODict _) => "dict"
  | None => ""
  end.

(** [load(self, name, version)]. *)
Definition load (name : string) (version : option string) : Eff catalog pyval :=
  let load_version :=
    if truthy_str version then Some {| load_version := version; save_version := None |}
    else None in
  dataset ← get_dataset name true load_version;
  h ← gets heap;
  log "INFO" ("Loading data from "
              ++ (if _has_rich_handler then _format_rich name "dark_orange" else name)
              ++ " (" ++ type_name h dataset ++ ")...");;
  result ← dataset_load dataset;
  mret result.

Definition no_confirm_message (name : string) : string :=
  "Dataset '" ++ name ++ "' does not have 'confirm' method".

(** [confirm(self, name)]. *)
Definition confirm (name : string) : Eff catalog unit :=
  log "INFO" ("Confirming dataset '" ++ name ++ "'");;
  dataset ← get_dataset name true None;
  h ← gets heap;
  if has_confirm h dataset then dataset_confirm dataset
  else raise (DatasetError (no_confirm_message name)).

(** ** Vocabulary of the statements *)

(** [key] is neither a configured name nor matched by a pattern. *)
Definition unknown_key (c : catalog) (key : string) : Prop :=
  (key ∉ dom (_config c)) ∧ truthy_str (match_pattern c key) = false.

#[global] Instance unknown_key_dec c key : Decision (unknown_key c key).
Proof. unfold unknown_key. apply _. Defined.

(** Every reference among the values of [datasets] points to an object. *)
Definition refs_ok (h : gmap loc object) (datasets : list (string * pyval)) : Prop :=
  ∀ k l, (k, PyRef l) ∈ datasets → l ∈ dom h.

(** The entry [(ds_name, value)] of a mapping passed to [add_from_dict] in
    the heap [h] is in place in [c]: the name is registered, with the value
    itself if the value was a dataset, and otherwise with an object created
    since that is an in-memory dataset holding the value. *)
Definition stored_for (h : gmap loc object) (c : catalog) (entry : string * pyval) : Prop :=
  ∃ dataset,
    _datasets c !! entry.1 = Some dataset ∧
    _resolved_ds_configs c !! entry.1 = Some ([] : config) ∧
    match is_dataset h entry.2 with
    | Some original => dataset = original
    | None => h !! dataset = None ∧
              heap c !! dataset = Some (ODataset (memory_dataset entry.2))
    end.

End Methods.
End KedroDataCatalog.

(** * Concrete namespaces and catalogs *)

Module Examples.
Import KedroDataCatalog.

Definition csv_dataset (path : string) : dataset :=
  {| ds_type := "CSVDataset"; ds_versioned := true; ds_has_confirm := false;
     ds_version := None; ds_data := PyStr path |}.

Definition incremental_dataset (path : string) : dataset :=
  {| ds_type := "IncrementalDataset"; ds_versioned := false; ds_has_confirm := true;
     ds_version := None; ds_data := PyStr path |}.

(** Three datasets [d1], [d2] and [d3]. *)
Definition objects : gmap loc object :=
  {[ 1%positive := ODataset (csv_dataset "cars.csv");
     2%positive := ODataset (memory_dataset (PyInt 7));
     3%positive := ODataset (incremental_dataset "parts/") ]}.

(** ** Namespaces *)

(** The namespace [_FrozenDatasets({"cars": d1, "boats": d2})]. *)
Definition two_datasets : _FrozenDatasets.state :=
  (_FrozenDatasets.construct
     [_FrozenDatasets.CDict [("cars", PyRef 1%positive); ("boats", PyRef 2%positive)]]
     objects).2.

(** The same namespace in a heap that has one more dict, [{"planes": ""}]. *)
Definition two_datasets_planes : _FrozenDatasets.state :=
  _FrozenDatasets.set_heap (insert 7%positive (ODict [("planes", PyStr "")])) two_datasets.

(** The namespace [_FrozenDatasets({"a b": d2})] ... *)
Definition inner : _FrozenDatasets.state :=
  (_FrozenDatasets.construct [_FrozenDatasets.CDict [("a b", PyRef 2%positive)]] objects).2.

(** ... and the namespace [_FrozenDatasets({"a.b": d1}, inner)]. *)
Definition outer : _FrozenDatasets.state :=
  (_FrozenDatasets.construct
     [_FrozenDatasets.CDict [("a.b", PyRef 1%positive)];
      _FrozenDatasets.CFrozen (_FrozenDatasets.self__dict__ inner)]
     (_FrozenDatasets.heap inner)).2.

(** ** Catalogs *)

(** A new catalog instance in the heap [h], before [__init__]. *)
Definition new_catalog (h : gmap loc object) : catalog :=
  {| _datasets := ∅; _config := ∅; _resolved_ds_configs := ∅;
     _load_versions := []; _save_version := None; _logger := []; heap := h |}.

(** A small implementation of the external code: the base class stores what
    it is given, the only pattern is [raw.{name}], nothing is materialised
    from configuration, and [confirm] does nothing. *)
Definition simple_init (datasets : option (list (string * loc)))
    (config credentials : option (list (string * config))) : Eff catalog unit :=
  modify (λ c,
    {| _datasets := list_to_map (default [] datasets);
       _config := list_to_map (default [] config);
       _resolved_ds_configs := list_to_map ((λ kv, (kv.1, [])) <$> default [] datasets);
       _load_versions := _load_versions c; _save_version := _save_version c;
       _logger := _logger c; heap := heap c |}).

Definition simple_externals : Externals :=
  {| super__init__ := simple_init;
     match_pattern := λ _ key,
       if String.prefix "raw." key then Some "raw.{name}" else None;
     resolve_config := λ _ _, None;
     not_found_message := λ _ name _, "Dataset '" ++ name ++ "' not found in the catalog";
     from_config := λ _ _ _ _, raise (External "from_config");
     dataset_confirm := λ _, ret tt;
     external_load := λ _, raise (External "load");
     _has_rich_handler := false;
     _format_rich := λ value _, value |}.

(** The catalog
    [KedroDataCatalog(datasets={"cars": d1, "seven": d2, "parts": d3})]. *)
Definition three_datasets : catalog :=
  (@__init__ simple_externals
     (Some [("cars", 1%positive); ("seven", 2%positive); ("parts", 3%positive)])
     None None None None (new_catalog objects)).2.

Definition v2024 : Version :=
  {| load_version := Some "2024-01-01T00.00.00.000Z"; save_version := None |}.

(** A configuration of two datasets and versions requested for four names. *)
Definition two_configs : option (list (string * config)) :=
  Some [("cars", []); ("boats", [])].
Definition four_versions : option (list (string * string)) :=
  Some [("zebra", "v1"); ("cars", "v2"); ("raw.trips", "v3"); ("apples", "v4")].

(** A mapping for [add_from_dict]; its third name is registered in
    [three_datasets]. *)
Definition mapping : list (string * pyval) :=
  [("m", PyInt 42); ("fleet", PyRef 1%positive); ("parts", PyStr "again");
   ("never", PyNone)].

End Examples.

(** * The rest of the two files *)

(** ** [DataCatalogOld], of [kedro/io/old_data_catalog.py] *)

Module DataCatalogOld.

(** Modelled from the spec: the type [Patterns] of [kedro.io.core_redesign] is
    not in these files; it is a mapping from pattern names to configuration
    templates. *)
Definition Patterns := list (string * list (string * pyval)).

(** The attributes of the instance and the heap.  [datasets] is the namespace
    [self.datasets], given by its [__dict__]. *)
Record catalog := {
  _datasets : list (string * pyval);
  datasets : gmap string pyval;
  _dataset_patterns : Patterns;
  _load_versions : list (string * string);
  _save_version : option string;
  _default_pattern : Patterns;
  heap : gmap loc object
}.

(** [_FrozenDatasets(collection)] called from a method of the catalog: the
    constructor runs in the heap of the catalog and leaves its objects there. *)
Definition new_frozen_datasets (collection : list (string * pyval))
  : Eff catalog (gmap string pyval) :=
  λ c, let '(r, σ) := _FrozenDatasets.construct [_FrozenDatasets.CDict collection] (heap c) in
       let c' := {| _datasets := _datasets c; datasets := datasets c;
                    _dataset_patterns := _dataset_patterns c;
                    _load_versions := _load_versions c;
                    _save_version := _save_version c;
                    _default_pattern := _default_pattern c;
                    heap := _FrozenDatasets.heap σ |} in
       match r with
       | Ok _ => (Ok (_FrozenDatasets.self__dict__ σ), c')
       | Raise e => (Raise e, c')
       end.

Definition set_datasets (v : list (string * pyval)) (c : catalog) : catalog :=
  {| _datasets := v; datasets := datasets c;
     _dataset_patterns := _dataset_patterns c; _load_versions := _load_versions c;
     _save_version := _save_version c; _default_pattern := _default_pattern c;
     heap := heap c |}.
Definition set_namespace (v : gmap string pyval) (c : catalog) : catalog :=
  {| _datasets := _datasets c; datasets := v;
     _dataset_patterns := _dataset_patterns c; _load_versions := _load_versions c;
     _save_version := _save_version c; _default_pattern := _default_pattern c;
     heap := heap c |}.
Definition set_versions (patterns : Patterns) (load_versions : list (string * string))
    (save_version : option string) (default_pattern : Patterns) (c : catalog) : catalog :=
  {| _datasets := _datasets c; datasets := datasets c;
     _dataset_patterns := patterns; _load_versions := load_versions;
     _save_version := save_version; _default_pattern := default_pattern;
     heap := heap c |}.

Section Init.
(** [self.add_feed_dict(feed_dict)], a method that is not in these files. *)
Variable add_feed_dict : list (string * pyval) → Eff catalog unit.

(** [__init__(self, datasets, feed_dict, dataset_patterns, load_versions,
    save_version, default_pattern)] on a new instance. *)
Definition __init__ (datasets feed_dict : option (list (string * pyval)))
    (dataset_patterns : option Patterns)
    (load_versions : option (list (string * string)))
    (save_version : option string) (default_pattern : option Patterns)
  : Eff catalog unit :=
  (* self._datasets = dict(datasets or {}) *)
  modify (set_datasets (default [] datasets));;
  (* self.datasets = _FrozenDatasets(self._datasets) *)
  c ← get;
  namespace ← new_frozen_datasets (_datasets c);
  modify (set_namespace namespace);;
  modify (set_versions (default [] dataset_patterns) (default [] load_versions)
            save_version (default [] default_pattern));;
  match feed_dict with
  | Some (_ :: _ as entries) => add_feed_dict entries
  | _ => ret tt
  end.
End Init.

(** A new instance in the heap [h], before [__init__]. *)
Definition new_catalog (h : gmap loc object) : catalog :=
  {| _datasets := []; datasets := ∅; _dataset_patterns := []; _load_versions := [];
     _save_version := None; _default_pattern := []; heap := h |}.

(** The namespace [self.datasets] as a state of [_FrozenDatasets]. *)
Definition namespace (c : catalog) : _FrozenDatasets.state :=
  {| _FrozenDatasets.self__dict__ := datasets c; _FrozenDatasets.heap := heap c |}.

End DataCatalogOld.

(** ** [release], of [kedro/io/kedro_data_catalog.py] *)

Module KedroDataCatalogRelease.
Import KedroDataCatalog.
Section Release.
Context `{Externals}.
(** [dataset.release()], a method of the dataset classes. *)
Variable dataset_release : loc → Eff catalog unit.

(** [release(self, name)]. *)
Definition release (name : string) : Eff catalog unit :=
  dataset ← get_dataset name true None;
  dataset_release dataset.
End Release.
End KedroDataCatalogRelease.

(** ** Vocabulary and concrete inputs of the further statements *)

Module MoreExamples.

(** The string has two underscores in a row. *)
Fixpoint double_underscore (s : list ascii) : bool :=
  match s with
  | a :: ((b :: _) as s') =>
      Ascii.eqb a "_" && Ascii.eqb b "_" || double_underscore s'
  | _ => false
  end.

(** The value is a literal or refers to a dataset: it is not a dict. *)
Definition not_a_dict (h : gmap loc object) (v : pyval) : Prop :=
  ∀ l, v = PyRef l → ∃ d, h !! l = Some (ODataset d).

(** Three datasets, two of which have names that sanitise to [a__b]. *)
Definition colliding : list (string * pyval) :=
  [("a.b", PyRef 1%positive); ("cars", PyRef 3%positive); ("a b", PyRef 2%positive)].

(** A dict with a dataset named [_original_names]. *)
Definition reserved : list (string * pyval) :=
  [("cars", PyRef 1%positive); ("_original_names", PyRef 2%positive)].

(** The state of the constructor of [_FrozenDatasets({"a.b": d1}, inner)]
    after its first argument. *)
Definition first_registered : _FrozenDatasets.state :=
  (_FrozenDatasets.construct [_FrozenDatasets.CDict [("a.b", PyRef 1%positive)]]
     (_FrozenDatasets.heap Examples.inner)).2.

(** The items [{"planes": d3}] added to a namespace. *)
Definition planes : list (string * pyval) := [("planes", PyRef 3%positive)].

(** The record the logger of a catalog receives when a dataset is replaced. *)
Definition replacing_record (ds_name : string) : string * string :=
  ("WARNING", "Replacing dataset '" ++ ds_name ++ "'").

(** A release method that does nothing. *)
Definition no_release (dataset : loc) : Eff KedroDataCatalog.catalog unit := ret tt.

(** An [add_feed_dict] that is never reached. *)
Definition no_feed_dict (entries : list (string * pyval)) : Eff DataCatalogOld.catalog unit :=
  raise (External "add_feed_dict").

(** The catalog that [__init__] leaves when it is given [two_configs] and
    [four_versions], and the same catalog with the versions in reverse
    order. *)
Definition versions_catalog : KedroDataCatalog.catalog :=
  (@KedroDataCatalog.__init__ Examples.simple_externals None Examples.two_configs None
     Examples.four_versions None (Examples.new_catalog ∅)).2.
Definition versions_catalog_reversed : KedroDataCatalog.catalog :=
  KedroDataCatalog.set_load_versions
    (reverse (KedroDataCatalog._load_versions versions_catalog)) versions_catalog.

Definition v2025 : Version :=
  {| load_version := Some "2025-01-01T00.00.00.000Z"; save_version := None |}.

End MoreExamples.

(** * Properties of [re.sub] for a pattern [C+] *)

Module ReFacts.
Import Re.
Local Open Scope list_scope.
Section Sub.
Context {char : Type} (cls : char → bool) (repl : list char).

Lemma runs_head c s : ∃ r rs, runs cls (c :: s) = (cls c, c :: r) :: rs.
Proof.
  simpl. destruct (runs cls s) as [|[b r] rs]; [by eauto|].
  destruct (Bool.eqb b (cls c)) eqn:E; [|by eauto].
  apply Bool.eqb_prop in E. subst b. eauto.
Qed.

Lemma runs_concat s : concat (map snd (runs cls s)) = s.
Proof.
  induction s as [|c s IH]; [done|]. simpl.
  destruct (runs cls s) as [|[b r] rs]; simpl in *; [by subst|].
  destruct (Bool.eqb b (cls c)); simpl; by rewrite IH.
Qed.

Lemma runs_is_run s : Forall (is_run cls) (runs cls s).
Proof.
  induction s as [|c s IH]; simpl; [constructor|].
  destruct (runs cls s) as [|[b r] rs].
  - repeat constructor; done.
  - destruct (Bool.eqb b (cls c)) eqn:E.
    + apply Bool.eqb_prop in E. inversion IH as [|? ? [_ Hr] Hrs]; subst.
      constructor; [|done]. split; [done|]. constructor; [done|]. exact Hr.
    + constructor; [|done]. split; [done|]. by repeat constructor.
Qed.

Lemma runs_alternating s : alternating (runs cls s).
Proof.
  induction s as [|c s IH]; simpl; [done|].
  destruct (runs cls s) as [|[b r] rs]; [done|].
  destruct (Bool.eqb b (cls c)) eqn:E.
  - destruct rs as [|[b' r'] rs]; [done|]. exact IH.
  - split; [|done]. intros Hb. by rewrite Hb, Bool.eqb_reflx in E.
Qed.

Lemma runs_maximal s : maximal_runs cls (runs cls s) s.
Proof. split_and!; [apply runs_concat|apply runs_is_run|apply runs_alternating]. Qed.

(** A run put in front of a string that does not continue it is the first
    maximal run of the result. *)
Lemma runs_app_run b r s :
  r ≠ [] → Forall (λ c, cls c = b) r →
  match runs cls s with (b', _) :: _ => b ≠ b' | [] => True end →
  runs cls (r ++ s) = (b, r) :: runs cls s.
Proof.
  intros Hne Hr Hs. induction Hr as [|c r Hc Hr IH]; [done|].
  destruct r as [|c' r].
  - simpl. destruct (runs cls s) as [|[b' r'] rs]; [by rewrite Hc|].
    destruct (Bool.eqb b' (cls c)) eqn:E; [|by rewrite Hc].
    apply Bool.eqb_prop in E. congruence.
  - change ((c :: c' :: r) ++ s) with (c :: ((c' :: r) ++ s)).
    cbn [runs]. rewrite IH by done. by rewrite Hc, Bool.eqb_reflx.
Qed.

(** The decomposition into maximal runs is unique: [runs] computes it. *)
Lemma maximal_runs_unique rs s : maximal_runs cls rs s → rs = runs cls s.
Proof.
  intros (Hcat & Hruns & Halt). subst s.
  induction rs as [|[b r] rs IH]; [done|].
  inversion Hruns as [|? ? [Hne Hr] Hrs]; subst. simpl in Hne, Hr.
  assert (Halt' : alternating rs).
  { destruct rs as [|[b' r'] rs]; [done|]. apply Halt. }
  specialize (IH Hrs Halt').
  cbn [map concat snd]. rewrite (runs_app_run b); [by rewrite <-IH|done..|].
  rewrite <-IH. destruct rs as [|[b' r'] rs]; [done|]. apply Halt.
Qed.

(** At a character of the class, the match covers the whole first run. *)
Lemma runs_match c s :
  cls c = true → ∃ r, runs cls (c :: s) = (true, r) :: runs cls (match_end cls s).
Proof.
  revert c. induction s as [|a s IH]; intros c Hc.
  - simpl. rewrite Hc. eauto.
  - cbn [match_end]. destruct (cls a) eqn:Ha.
    + destruct (IH a Ha) as [r Hr]. exists (c :: r).
      change (runs cls (c :: a :: s)) with
        (match runs cls (a :: s) with
         | (b, r) :: rs =>
             if Bool.eqb b (cls c) then (b, c :: r) :: rs
             else (cls c, [c]) :: (b, r) :: rs
         | [] => [(cls c, [c])]
         end).
      by rewrite Hr, Hc.
    + exists [c]. destruct (runs_head a s) as (r & rs & Hr).
      change (runs cls (c :: a :: s)) with
        (match runs cls (a :: s) with
         | (b, r) :: rs =>
             if Bool.eqb b (cls c) then (b, c :: r) :: rs
             else (cls c, [c]) :: (b, r) :: rs
         | [] => [(cls c, [c])]
         end).
      by rewrite Hr, Ha, Hc.
Qed.

Lemma replace_runs_skip c s :
  cls c = false →
  replace_runs repl (runs cls (c :: s)) = c :: replace_runs repl (runs cls s).
Proof.
  intros Hc. unfold replace_runs. simpl.
  destruct (runs cls s) as [|[b r] rs]; simpl; [by rewrite Hc|].
  rewrite Hc. by destruct b.
Qed.

(** The substitution replaces exactly the maximal runs inside the class. *)
Lemma sub_plus_runs s : sub_plus cls repl s = replace_runs repl (runs cls s).
Proof.
  funelim (sub_plus cls repl s).
  - done.
  - destruct (runs_match c s' Heq) as [r Hr]. rewrite Hr.
    unfold replace_runs at 1. cbn [map concat fst]. by rewrite H.
  - rewrite replace_runs_skip by done. by rewrite H.
Qed.

(** A string without a character of the class is left as it is. *)
Lemma sub_plus_id s : Forall (λ c, cls c = false) s → sub_plus cls repl s = s.
Proof.
  induction 1 as [|c s Hc Hs IH]; simp sub_plus; [done|].
  rewrite Hc. simpl. by rewrite IH.
Qed.
End Sub.
End ReFacts.

(** * Properties of [kedro/io/old_data_catalog.py] *)

Module SanitizeFacts.
Local Open Scope list_scope.

Example sub_ex1 : _sub_nonword_chars "a.b" = "a__b".
Proof. by vm_compute. Qed.
Example sub_ex2 : _sub_nonword_chars "ns:raw. data@v1" = "ns__raw__data__v1".
Proof. by vm_compute. Qed.
(** Letters and digits of any script are word characters. *)
Example sub_ex3 : _sub_nonword_chars "数据" = "数据".
Proof. by vm_compute. Qed.
Example sub_ex4 : _sub_nonword_chars "naïve café" = "naïve__café".
Proof. by vm_compute. Qed.
Example chars_ex :
  chars "数据" = [list_ascii_of_string "数"; list_ascii_of_string "据"] ∧
  codepoint <$> chars "数据" = [Some 25968%N; Some 25454%N].
Proof. by vm_compute. Qed.

(** The characters of a string make up the string. *)
Lemma utf8_chars_concat s : concat (utf8_chars s) = s.
Proof.
  funelim (utf8_chars s); simp utf8_chars; [done|].
  cbn [concat app]. rewrite H. by rewrite take_drop.
Qed.

Lemma str_of_chars_chars s : str_of_chars (chars s) = s.
Proof.
  unfold str_of_chars, chars. rewrite utf8_chars_concat.
  apply string_of_list_ascii_of_string.
Qed.

(** Whole characters put together are the characters of the result. *)
Lemma utf8_chars_whole cs :
  Forall (λ c, utf8_whole c = true) cs → utf8_chars (concat cs) = cs.
Proof.
  induction 1 as [|c cs Hc Hcs IH]; [by simp utf8_chars|].
  destruct c as [|b t]; [done|]. cbn [utf8_whole] in Hc. apply Nat.eqb_eq in Hc.
  cbn [concat app]. simp utf8_chars. rewrite <-Hc.
  by rewrite take_app_length, drop_app_length, IH.
Qed.

(** The encoding of a code point is a whole character. *)
Lemma codepoint_whole c cp : codepoint c = Some cp → utf8_whole c = true.
Proof.
  unfold utf8_whole, utf8_width.
  destruct c as [|b [|b1 [|b2 [|b3 [|b4 c]]]]];
    unfold codepoint; cbv zeta; cbn [List.length]; try discriminate;
    set (n := N_of_ascii b).
  - destruct (N.ltb_spec n 128); [|discriminate]. intros _.
    destruct (N.ltb_spec n 192); [reflexivity|lia].
  - destruct (N.leb_spec 192 n); [|discriminate].
    destruct (N.ltb_spec n 224); [|discriminate]. intros _.
    destruct (N.ltb_spec n 192); [lia|reflexivity].
  - destruct (N.leb_spec 224 n); [|discriminate].
    destruct (N.ltb_spec n 240); [|discriminate]. intros _.
    destruct (N.ltb_spec n 192); [lia|].
    destruct (N.ltb_spec n 224); [lia|reflexivity].
  - destruct (N.leb_spec 240 n); [|discriminate]. intros _.
    destruct (N.ltb_spec n 192); [lia|].
    destruct (N.ltb_spec n 224); [lia|].
    destruct (N.ltb_spec n 240); [lia|reflexivity].
Qed.

Lemma word_whole c : is_word_char c = true → utf8_whole c = true.
Proof.
  unfold is_word_char. destruct (codepoint c) as [cp|] eqn:Hc; [|done].
  intros _. by eapply codepoint_whole.
Qed.

(** [\W] and [\w] partition the characters. *)
Lemma nonword_false_iff c : is_nonword_char c = false ↔ is_word_char c = true.
Proof. unfold is_nonword_char. by destruct (is_word_char c). Qed.

(** C7: the sanitised key of a dataset name is the name with every maximal run
    of non-word characters replaced by a double underscore, whichever way the
    decomposition of its characters into maximal runs is obtained, and a name
    made of word characters only is left unchanged. *)
Theorem sub_nonword_chars_maximal_runs (dataset_name : string) :
  (∀ rs, Re.maximal_runs is_nonword_char rs (chars dataset_name) →
         _sub_nonword_chars dataset_name =
         str_of_chars (Re.replace_runs (chars "__") rs)) ∧
  Re.maximal_runs is_nonword_char
    (Re.runs is_nonword_char (chars dataset_name)) (chars dataset_name) ∧
  _sub_nonword_chars dataset_name = sanitized_key_spec dataset_name ∧
  (Forall (λ c, is_word_char c = true) (chars dataset_name) →
   _sub_nonword_chars dataset_name = dataset_name).
Proof.
  unfold _sub_nonword_chars, sanitized_key_spec, WORDS_REGEX_PATTERN. split_and!.
  - intros rs Hrs. apply ReFacts.maximal_runs_unique in Hrs. subst rs.
    by rewrite ReFacts.sub_plus_runs.
  - apply ReFacts.runs_maximal.
  - by rewrite ReFacts.sub_plus_runs.
  - intros Hw. rewrite ReFacts.sub_plus_id.
    + apply str_of_chars_chars.
    + eapply Forall_impl; [exact Hw|]. intros c. apply nonword_false_iff.
Qed.

Lemma sub_nonword_chars_maximal_runs_witness :
  Re.maximal_runs is_nonword_char
    [(false, chars "数据"); (true, chars ". "); (false, chars "é1")]
    (chars "数据. é1") ∧
  _sub_nonword_chars "数据. é1" = "数据__é1" ∧
  Forall (λ c, is_word_char c = true) (chars "raw_data") ∧
  _sub_nonword_chars "raw_data" = "raw_data".
Proof.
  assert (Hruns : Re.maximal_runs is_nonword_char
    [(false, chars "数据"); (true, chars ". "); (false, chars "é1")]
    (chars "数据. é1")).
  { assert (Heq : [(false, chars "数据"); (true, chars ". "); (false, chars "é1")]
                  = Re.runs is_nonword_char (chars "数据. é1")) by (by vm_compute).
    rewrite Heq. apply ReFacts.runs_maximal. }
  assert (Hword : Forall (λ c, is_word_char c = true) (chars "raw_data")).
  { apply (bool_decide_unpack _). by vm_compute. }
  split_and!; [exact Hruns| |exact Hword|].
  - rewrite (proj1 (sub_nonword_chars_maximal_runs "数据. é1") _ Hruns). by vm_compute.
  - exact (proj2 (proj2 (proj2 (sub_nonword_chars_maximal_runs "raw_data"))) Hword).
Defined.

End SanitizeFacts.

Module FrozenDatasetsFacts.
Import _FrozenDatasets Examples.


(** Setting [_original_names] is accepted, and deleting the attribute of a
    registered dataset succeeds and removes it: not every mutation is
    rejected. *)
Lemma mutation_accepted :
  (__setattr__ "_original_names" PyNone two_datasets).1 = Ok tt ∧
  (__getattribute__ "cars" two_datasets).1 = Ok (PyRef 1%positive) ∧
  (__delattr__ "cars" two_datasets).1 = Ok tt ∧
  (__getattribute__ "cars" (__delattr__ "cars" two_datasets).2).1 =
    Raise (AttributeError "'_FrozenDatasets' object has no attribute 'cars'").
Proof. vm_compute. done. Qed.

(** C8, amended: setting an attribute other than [_original_names] raises an
    [AttributeError] and leaves the namespace as it was; the message is one of
    two different texts, according to whether the key is already an attribute
    (change the configuration) or not (use [DataCatalog.add()]). *)
Theorem setattr_rejected (σ : state) (key : string) (value : pyval) :
  key ≠ "_original_names" →
  __setattr__ key value σ =
    (Raise (AttributeError (if decide (key ∈ dom (self__dict__ σ))
                            then msg_present else msg_absent)), σ) ∧
  msg_present ≠ msg_absent.
Proof.
  intros Hkey. split.
  - unfold __setattr__. rewrite decide_False by done.
    cbv [mbind eff_bind bind gets raise]. by case_decide.
  - done.
Qed.

Lemma setattr_rejected_witness :
  __setattr__ "cars" PyNone two_datasets =
    (Raise (AttributeError msg_present), two_datasets) ∧
  __setattr__ "trains" PyNone two_datasets =
    (Raise (AttributeError msg_absent), two_datasets).
Proof.
  assert (Hcars : "cars" ≠ "_original_names") by done.
  assert (Htrains : "trains" ≠ "_original_names") by done.
  assert (Hin : "cars" ∈ dom (self__dict__ two_datasets)) by (vm_compute; done).
  assert (Hout : "trains" ∉ dom (self__dict__ two_datasets)) by (vm_compute; done).
  pose proof (setattr_rejected two_datasets "cars" PyNone Hcars) as (Hset & _).
  pose proof (setattr_rejected two_datasets "trains" PyNone Htrains) as (Hset' & _).
  rewrite decide_True in Hset by done. rewrite decide_False in Hset' by done.
  split; [exact Hset|exact Hset'].
Defined.

(** C10: setting the attribute [_original_names] never raises: the value is
    stored, it is what the attribute reads as afterwards, and the enumeration
    of the original names follows it. *)
Theorem setattr_original_names (σ : state) (value : pyval) :
  __setattr__ "_original_names" value σ =
    (Ok tt, set__dict__ (insert "_original_names" value) σ) ∧
  __getattribute__ "_original_names" (set__dict__ (insert "_original_names" value) σ) =
    (Ok value, set__dict__ (insert "_original_names" value) σ) ∧
  (∀ l items, value = PyRef l → heap σ !! l = Some (ODict items) →
              _ipython_key_completions_ (set__dict__ (insert "_original_names" value) σ) =
                (Ok (od_keys items), set__dict__ (insert "_original_names" value) σ)).
Proof.
  split_and!.
  - unfold __setattr__. by rewrite decide_True.
  - unfold __getattribute__, getattr. cbv [mbind eff_bind bind gets].
    simpl. by rewrite lookup_insert_eq.
  - intros l items -> Hl. unfold _ipython_key_completions_, getattr.
    cbv [mbind eff_bind bind gets]. simpl.
    rewrite lookup_insert_eq. cbv [ret dict_items]. simpl. by rewrite Hl.
Qed.

Lemma setattr_original_names_witness :
  (_ipython_key_completions_ two_datasets_planes).1 = Ok ["cars"; "boats"] ∧
  __setattr__ "_original_names" (PyRef 7%positive) two_datasets_planes =
    (Ok tt, set__dict__ (insert "_original_names" (PyRef 7%positive)) two_datasets_planes) ∧
  _ipython_key_completions_
    (set__dict__ (insert "_original_names" (PyRef 7%positive)) two_datasets_planes) =
    (Ok ["planes"],
     set__dict__ (insert "_original_names" (PyRef 7%positive)) two_datasets_planes).
Proof.
  pose proof (setattr_original_names two_datasets_planes (PyRef 7%positive))
    as (Hset & _ & Hnames).
  split_and!; [by vm_compute|exact Hset|].
  apply (Hnames 7%positive [("planes", PyStr "")]); [done|by vm_compute].
Defined.

(** An attribute that is not a data descriptor of the type is read from
    [__dict__] if it is there. *)
Lemma getattr_dict (d : gmap string pyval) key v (σ : state) :
  key ∉ od_keys data_descriptors → d !! key = Some v → getattr d key σ = (Ok v, σ).
Proof.
  intros Hkey Hd. unfold getattr.
  assert (Hno : od_get data_descriptors key = None).
  { unfold data_descriptors, od_keys in *. cbn [od_get fmap list_fmap fst] in *.
    repeat case_decide; try done; subst; destruct Hkey;
      repeat ((by left) || right). }
  by rewrite Hno, Hd.
Qed.

(** The type has no attribute [_original_names]: it is read from
    [__dict__]. *)
Lemma getattr_names (d : gmap string pyval) :
  getattr d "_original_names" =
  match d !! "_original_names" with
  | Some v => ret v
  | None => raise (AttributeError
                     "'_FrozenDatasets' object has no attribute '_original_names'")
  end.
Proof. reflexivity. Qed.

Lemma setattr_names_stores (σ : state) (value : pyval) :
  __setattr__ "_original_names" value σ =
    (Ok tt, set__dict__ (insert "_original_names" value) σ).
Proof. unfold __setattr__. by rewrite decide_True. Qed.

(** The loop over the items of a dict, when no name sanitises to
    [_original_names]. *)
Lemma for_each_register items : ∀ (σ : state) l names,
  Forall (λ kv, _sub_nonword_chars kv.1 ≠ "_original_names") items →
  self__dict__ σ !! "_original_names" = Some (PyRef l) →
  heap σ !! l = Some (ODict names) →
  for_each items register σ =
    (Ok tt, {| self__dict__ := dict_after items (self__dict__ σ);
               heap := <[l := ODict (names_after items names)]> (heap σ) |}).
Proof.
  induction items as [|[k v] items IH]; intros σ l names Hitems Hattr Hnames.
  - simpl. destruct σ as [d h]. simpl in *. unfold ret. by rewrite insert_id.
  - apply Forall_cons in Hitems as [Hk Hitems]. simpl in Hk.
    cbn [for_each]. unfold bind at 1.
    assert (Hreg : register (k, v) σ =
      (Ok tt, {| self__dict__ := <[_sub_nonword_chars k := v]> (self__dict__ σ);
                 heap := <[l := ODict (od_set names k (PyStr ""))]> (heap σ) |})).
    { unfold register, getattr, dict_setitem, dict_items.
      cbv [mbind eff_bind bind gets modify ret]. simpl.
      rewrite lookup_insert_ne by done. rewrite Hattr. simpl. by rewrite Hnames. }
    rewrite Hreg.
    rewrite (IH _ l (od_set names k (PyStr ""))); [|done|..]; simpl.
    + by rewrite insert_insert_eq.
    + by rewrite lookup_insert_ne.
    + by rewrite lookup_insert_eq.
Qed.

(** Construction from one dict. *)
Lemma construct_dict items (h : gmap loc object) :
  Forall (λ kv, _sub_nonword_chars kv.1 ≠ "_original_names") items →
  construct [CDict items] h =
    (Ok tt, {| self__dict__ := dict_after items {["_original_names" := PyRef (fresh (dom h))]};
               heap := <[fresh (dom h) := ODict (names_after items [])]> h |}).
Proof.
  intros Hitems. unfold construct, __init__, new_dict.
  cbv [mbind eff_bind bind]. rewrite setattr_names_stores.
  cbv [for_each merge bind]. simpl.
  rewrite (for_each_register items _ (fresh (dom h)) []); [|done|..]; simpl.
  - unfold ret. by rewrite insert_insert_eq, insert_empty.
  - by rewrite lookup_insert_eq.
  - by rewrite lookup_insert_eq.
Qed.

Lemma od_keys_set (names : list (string * pyval)) k v k' :
  k' ∈ od_keys (od_set names k v) ↔ k' = k ∨ k' ∈ od_keys names.
Proof.
  unfold od_keys. induction names as [|[k0 v0] names IH]; simpl.
  - rewrite list_elem_of_singleton. split; [by left|]. intros [?|?%elem_of_nil]; done.
  - case_decide as Hk; simpl; rewrite !elem_of_cons.
    + subst k0. tauto.
    + rewrite IH. tauto.
Qed.

Lemma od_keys_names_after items : ∀ names k,
  k ∈ od_keys (names_after items names) ↔ k ∈ items.*1 ∨ k ∈ od_keys names.
Proof.
  unfold names_after.
  induction items as [|[k0 v0] items IH]; intros names k; simpl.
  - split; [by right|]. intros [?%elem_of_nil|?]; done.
  - rewrite IH, od_keys_set, elem_of_cons. tauto.
Qed.

Lemma dict_after_other items : ∀ (d : gmap string pyval) key,
  Forall (λ kv, _sub_nonword_chars kv.1 ≠ key) items →
  dict_after items d !! key = d !! key.
Proof.
  unfold dict_after.
  induction items as [|[k v] items IH]; intros d key Hitems; simpl; [done|].
  apply Forall_cons in Hitems as [Hk Hitems]. simpl in Hk.
  rewrite IH by done. by rewrite lookup_insert_ne.
Qed.

Lemma dict_after_app pre name dataset post (d : gmap string pyval) :
  dict_after (pre ++ (name, dataset) :: post) d =
  dict_after post (<[_sub_nonword_chars name := dataset]> (dict_after pre d)).
Proof. unfold dict_after. by rewrite foldl_app. Qed.

(** In a namespace built from one dict whose names do not sanitise to
    [_original_names], every original name is enumerated, and the lookup by
    any name that sanitises to the key of a registered name returns the
    dataset registered last under that key; so does reading the attribute of
    that key, unless the key is one of [__class__], [__dict__] and
    [__weakref__], which are read from the type. *)
Lemma construct_dict_last_wins items (h : gmap loc object) pre name dataset post name' :
  Forall (λ kv, _sub_nonword_chars kv.1 ≠ "_original_names") items →
  items = (pre ++ (name, dataset) :: post)%list →
  Forall (λ kv, _sub_nonword_chars kv.1 ≠ _sub_nonword_chars name) post →
  _sub_nonword_chars name' = _sub_nonword_chars name →
  ∃ σ names,
    construct [CDict items] h = (Ok tt, σ) ∧
    __getitem__ name' σ = (Ok dataset, σ) ∧
    (_sub_nonword_chars name ∉ od_keys data_descriptors →
     __getattribute__ (_sub_nonword_chars name) σ = (Ok dataset, σ)) ∧
    _ipython_key_completions_ σ = (Ok names, σ) ∧
    ∀ k, k ∈ names ↔ k ∈ items.*1.
Proof.
  intros Hitems Hsplit Hpost Hsame. rewrite (construct_dict items h Hitems).
  eexists _, _. split; [done|].
  assert (Hlookup : dict_after items {["_original_names" := PyRef (fresh (dom h))]}
                      !! _sub_nonword_chars name = Some dataset).
  { rewrite Hsplit, dict_after_app.
    rewrite (dict_after_other post) by done. by rewrite lookup_insert_eq. }
  assert (Hnames : dict_after items {["_original_names" := PyRef (fresh (dom h))]}
                      !! "_original_names" = Some (PyRef (fresh (dom h)))).
  { rewrite dict_after_other by done. by rewrite lookup_singleton_eq. }
  split_and!.
  - unfold __getitem__. cbv [mbind eff_bind bind gets]. simpl.
    by rewrite Hsame, Hlookup.
  - intros Hkey. unfold __getattribute__. cbv [mbind eff_bind bind gets].
    by apply getattr_dict.
  - unfold _ipython_key_completions_, getattr, dict_items.
    cbv [mbind eff_bind bind gets]. simpl. rewrite Hnames. simpl.
    by rewrite lookup_insert_eq.
  - intros k. rewrite od_keys_names_after. unfold od_keys. simpl.
    split; [intros [?|?%elem_of_nil]; done|by left].
Qed.


Lemma od_keys_set_present (d : list (string * pyval)) k v :
  k ∈ od_keys d → od_keys (od_set d k v) = od_keys d.
Proof.
  unfold od_keys. induction d as [|[k0 v0] d IH]; cbn [od_set].
  - by intros ?%elem_of_nil.
  - rewrite fmap_cons. intros Hin. case_decide as Hk; rewrite fmap_cons; [done|].
    apply elem_of_cons in Hin as [Heq|Hin]; [by subst|]. by rewrite IH.
Qed.

Lemma od_keys_update (other : list (string * pyval)) : ∀ d,
  (∀ k, k ∈ od_keys other → k ∈ od_keys d) → od_keys (od_update d other) = od_keys d.
Proof.
  unfold od_update. induction other as [|[k v] other IH]; intros d Hsub; [done|].
  cbn [foldl fst snd]. assert (Hk : k ∈ od_keys d) by (apply Hsub; by left).
  rewrite IH; [by apply od_keys_set_present|].
  intros k' Hk'. rewrite od_keys_set_present by done. apply Hsub. by right.
Qed.

(** Merging another namespace makes its record of names the record of this
    one: whatever had been recorded before is no longer enumerated. *)
Lemma merge_frozen_names (σ : state) other l names :
  other !! "_original_names" = Some (PyRef l) →
  heap σ !! l = Some (ODict names) →
  ∃ σ', merge (CFrozen other) σ = (Ok tt, σ') ∧
        self__dict__ σ' = other ∪ self__dict__ σ ∧
        _ipython_key_completions_ σ' = (Ok (od_keys names), σ').
Proof.
  destruct σ as [d h]. cbn [self__dict__ heap]. intros Hother Hnames.
  assert (Hself : (other ∪ d) !! "_original_names" = Some (PyRef l)).
  { by apply lookup_union_Some_l. }
  exists {| self__dict__ := other ∪ d;
            heap := <[l := ODict (od_update names names)]> h |}.
  split_and!.
  - unfold merge, dict_update, dict_items, set__dict__, set_heap.
    cbv [mbind eff_bind bind gets modify ret]. cbn [self__dict__ heap].
    rewrite getattr_names, Hself. cbv [ret]. cbn [self__dict__ heap]. rewrite Hnames.
    rewrite getattr_names, Hother. cbv [ret].
    by repeat (cbn [self__dict__ heap]; rewrite Hnames).
  - done.
  - unfold _ipython_key_completions_, dict_items.
    cbv [mbind eff_bind bind gets ret]. cbn [self__dict__ heap].
    rewrite getattr_names, Hself. cbv [ret].
    cbn [self__dict__ heap]. rewrite lookup_insert_eq. by rewrite od_keys_update.
Qed.

(** The record of names is shared, not copied: registering a name in a
    namespace built from [inner] also adds it to the names of [inner]. *)
Example merge_aliases_names :
  (_ipython_key_completions_ inner).1 = Ok ["a b"] ∧
  (_ipython_key_completions_
     {| self__dict__ := self__dict__ inner;
        heap := heap (construct [CFrozen (self__dict__ inner);
                                 CDict [("c", PyRef 3%positive)]] (heap inner)).2 |}).1
  = Ok ["a b"; "c"].
Proof. by vm_compute. Qed.

(** C9: both names sanitise to [a__b] and the lookups return the dataset
    registered last, but the enumeration of the original names has lost
    [a.b]: merging the second collection replaced the record of names the
    first one had filled. *)
Theorem merge_loses_original_names :
  _sub_nonword_chars "a.b" = "a__b" ∧ _sub_nonword_chars "a b" = "a__b" ∧
  (__getattribute__ "a__b" outer).1 = Ok (PyRef 2%positive) ∧
  (__getitem__ "a.b" outer).1 = Ok (PyRef 2%positive) ∧
  (__getitem__ "a b" outer).1 = Ok (PyRef 2%positive) ∧
  (_ipython_key_completions_ outer).1 = Ok ["a b"].
Proof. vm_compute. done. Qed.

End FrozenDatasetsFacts.

(** * Properties of the Python run-time model *)

Module PyFacts.

Lemma compare_not_gt_trans s1 s2 s3 :
  String.compare s1 s2 ≠ Gt → String.compare s2 s3 ≠ Gt → String.compare s1 s3 ≠ Gt.
Proof.
  revert s2 s3. induction s1 as [|a s1 IH]; intros [|b s2] [|c s3]; simpl; try done.
  unfold Ascii.compare.
  destruct (N.compare_spec (N_of_ascii a) (N_of_ascii b)) as [Hab|Hab|Hab];
    destruct (N.compare_spec (N_of_ascii b) (N_of_ascii c)) as [Hbc|Hbc|Hbc];
    destruct (N.compare_spec (N_of_ascii a) (N_of_ascii c)) as [Hac|Hac|Hac];
    try done; try lia.
  apply IH.
Qed.

#[global] Instance str_le_trans : Transitive str_le.
Proof.
  intros s1 s2 s3. unfold str_le, String.leb. intros H12 H23.
  pose proof (compare_not_gt_trans s1 s2 s3) as Htrans.
  destruct (String.compare s1 s2), (String.compare s2 s3), (String.compare s1 s3);
    try done; exfalso; by apply Htrans.
Qed.

#[global] Instance str_le_total : Total str_le.
Proof. intros s1 s2. apply String.leb_total. Qed.

#[global] Instance str_le_antisym : AntiSymm eq str_le.
Proof. intros s1 s2. apply String.leb_antisym. Qed.

(** [sorted] returns its argument rearranged in increasing order. *)
Lemma sorted_spec l : StronglySorted str_le (sorted l) ∧ sorted l ≡ₚ l.
Proof.
  split; [apply (StronglySorted_merge_sort str_le); apply _|apply merge_sort_Permutation].
Qed.

(** There is one such rearrangement: any sorting algorithm returns it. *)
Lemma sorted_unique l l' : StronglySorted str_le l' → l' ≡ₚ l → l' = sorted l.
Proof.
  intros Hs Hp. destruct (sorted_spec l) as [Hs' Hp'].
  eapply (StronglySorted_unique str_le); [done..|]. by rewrite Hp, Hp'.
Qed.

End PyFacts.

(** * Properties of [kedro/io/kedro_data_catalog.py] *)

Module KedroDataCatalogFacts.
Import KedroDataCatalog.

(** Unfold the monad. *)
Ltac eff := cbv [mbind mret eff_bind eff_ret bind ret get gets modify raise log alloc].

Section Facts.
Context `{Externals}.

Lemma validate_missing_keys_eq c :
  _validate_missing_keys c =
  match missing_keys c with
  | [] => (Ok tt, c)
  | _ :: _ => (Raise (DatasetNotFoundError (missing_keys_message (missing_keys c))), c)
  end.
Proof. unfold _validate_missing_keys. eff. by destruct (missing_keys c). Qed.

(** The keys reported are the keys of [load_versions] that are neither
    configured nor matched by a pattern. *)
Lemma elem_of_missing_keys c key :
  key ∈ missing_keys c ↔ key ∈ od_keys (_load_versions c) ∧ unknown_key c key.
Proof.
  unfold missing_keys, is_known, unknown_key. rewrite list_elem_of_filter.
  rewrite orb_True, bool_decide_spec.
  destruct (truthy_str (match_pattern c key)); simpl; intuition congruence.
Qed.

(** When pattern names are not empty, as dataset names are, a key is matched
    exactly when [match_pattern] returns a pattern. *)
Lemma truthy_match_pattern c key :
  match_pattern c key ≠ Some "" →
  (truthy_str (match_pattern c key) = true) ↔ is_Some (match_pattern c key).
Proof.
  intros Hne. destruct (match_pattern c key) as [p|]; simpl.
  - split; [by eauto|]. intros _. destruct (String.eqb_spec p ""); [by subst|done].
  - split; [done|]. by intros [? ?].
Qed.

(** C1: once the base class has initialised the catalog, construction fails
    with [DatasetNotFoundError] if and only if some key of [load_versions] is
    neither configured nor matched by a pattern; the message then lists those
    keys, all of them and no other, in increasing order; and when every key is
    known construction succeeds and leaves the catalog as the base class
    initialised it. *)
Theorem init_validates_load_versions datasets config credentials load_versions
    save_version (c0 c : catalog) :
  super__init__ datasets config credentials
    (set_save_version save_version (set_load_versions (default [] load_versions) c0))
  = (Ok tt, c) →
  ((∃ msg c', __init__ datasets config credentials load_versions save_version c0 =
                (Raise (DatasetNotFoundError msg), c')) ↔
   (∃ key, key ∈ od_keys (_load_versions c) ∧ unknown_key c key)) ∧
  ((∃ key, key ∈ od_keys (_load_versions c) ∧ unknown_key c key) →
   ∃ listed,
     __init__ datasets config credentials load_versions save_version c0 =
       (Raise (DatasetNotFoundError
                 ("'load_versions' keys [" ++ join ", " listed
                  ++ "] are not found in the catalog.")), c) ∧
     StronglySorted str_le listed ∧
     listed ≡ₚ filter (unknown_key c) (od_keys (_load_versions c)) ∧
     (∀ key, key ∈ listed ↔ key ∈ od_keys (_load_versions c) ∧ unknown_key c key)) ∧
  ((∀ key, key ∈ od_keys (_load_versions c) → ¬ unknown_key c key) →
   __init__ datasets config credentials load_versions save_version c0 = (Ok tt, c)).
Proof.
  intros Hsuper.
  assert (Hrun : __init__ datasets config credentials load_versions save_version c0
                 = _validate_missing_keys c).
  { unfold __init__. eff. by rewrite Hsuper. }
  rewrite Hrun, validate_missing_keys_eq.
  assert (Hmem : ∀ key, key ∈ missing_keys c ↔
                        key ∈ od_keys (_load_versions c) ∧ unknown_key c key).
  { intros key. apply elem_of_missing_keys. }
  assert (Hfilter : missing_keys c = filter (unknown_key c) (od_keys (_load_versions c))).
  { unfold missing_keys. apply list_filter_iff. intros key. unfold unknown_key, is_known.
    rewrite orb_True, bool_decide_spec.
    destruct (truthy_str (match_pattern c key)); simpl; intuition congruence. }
  split_and!.
  - destruct (missing_keys c) as [|k ks] eqn:E.
    + split; [by intros (? & ? & ?)|]. intros (key & Hkey).
      apply Hmem in Hkey. by apply elem_of_nil in Hkey.
    + split; [|by eauto]. intros _. exists k. apply Hmem. by left.
  - intros (key & Hkey). apply Hmem in Hkey.
    exists (sorted (missing_keys c)).
    destruct (PyFacts.sorted_spec (missing_keys c)) as [Hsorted Hperm].
    split_and!.
    + destruct (missing_keys c) as [|k ks] eqn:E; [by apply elem_of_nil in Hkey|].
      done.
    + done.
    + by rewrite Hperm, Hfilter.
    + intros k. by rewrite Hperm.
  - intros Hall. destruct (missing_keys c) as [|k ks] eqn:E; [done|].
    destruct (Hmem k) as [Hk _]. destruct Hk as [Hin Hunknown]; [by left|].
    by destruct (Hall k Hin).
Qed.

(** A cached dataset is what the base-class lookup returns. *)
Lemma super_get_dataset_cached c ds_name suggest dataset :
  _datasets c !! ds_name = Some dataset →
  super_get_dataset ds_name suggest c = (Ok dataset, c).
Proof. intros Hc. unfold super_get_dataset. eff. by rewrite Hc. Qed.

Lemma get_dataset_cached c ds_name suggest dataset :
  _datasets c !! ds_name = Some dataset →
  get_dataset ds_name suggest None c = (Ok dataset, c).
Proof.
  intros Hc. unfold get_dataset. eff.
  by rewrite (super_get_dataset_cached c ds_name suggest dataset Hc).
Qed.

(** C2: for a registered name whose cached dataset is version-aware,
    [get_dataset] with a version returns a new object that is the cached
    dataset with its version replaced and nothing else changed; the cached
    object and every other object are left as they were, the catalog still
    maps the name to the cached object, and a later [get_dataset] without a
    version returns that cached object. *)
Theorem get_dataset_version_copy (c : catalog) ds_name suggest version cached d :
  _datasets c !! ds_name = Some cached →
  heap c !! cached = Some (ODataset d) →
  ds_versioned d = true →
  ∃ copy d' c',
    get_dataset ds_name suggest (Some version) c = (Ok copy, c') ∧
    copy ≠ cached ∧ heap c !! copy = None ∧
    heap c' !! copy = Some (ODataset d') ∧
    ds_version d' = Some version ∧
    ds_type d' = ds_type d ∧ ds_versioned d' = ds_versioned d ∧
    ds_has_confirm d' = ds_has_confirm d ∧ ds_data d' = ds_data d ∧
    heap c' !! cached = Some (ODataset d) ∧
    (∀ l, l ≠ copy → heap c' !! l = heap c !! l) ∧
    _datasets c' = _datasets c ∧
    _resolved_ds_configs c' = _resolved_ds_configs c ∧
    (∀ suggest', get_dataset ds_name suggest' None c' = (Ok cached, c')).
Proof.
  intros Hname Hobj Hver.
  set (copy := fresh (dom (heap c))).
  assert (Hfresh : heap c !! copy = None).
  { apply not_elem_of_dom. apply is_fresh. }
  assert (Hne : copy ≠ cached) by congruence.
  exists copy, (with_version d version),
    (set_heap (insert copy (ODataset (with_version d version))) c).
  split_and!; try done.
  - unfold get_dataset. eff.
    rewrite (super_get_dataset_cached c ds_name suggest cached Hname).
    unfold is_versioned, _copy. eff. rewrite Hobj, Hver.
    by rewrite Hobj.
  - simpl. by rewrite lookup_insert_eq.
  - simpl. by rewrite lookup_insert_ne.
  - intros l Hl. simpl. by rewrite lookup_insert_ne.
  - intros suggest'. by apply get_dataset_cached.
Qed.

(** C3: when the dataset a name resolves to is not version-aware,
    [get_dataset] returns that very dataset whatever the version argument is:
    outcome and state are those of the lookup alone, so nothing is raised and
    no object is created or changed on account of the version. *)
Theorem get_dataset_not_versioned (c : catalog) ds_name suggest version :
  (∀ dataset c1,
     super_get_dataset ds_name suggest c = (Ok dataset, c1) →
     is_versioned (heap c1) dataset = false →
     get_dataset ds_name suggest version c = (Ok dataset, c1)) ∧
  (∀ dataset,
     _datasets c !! ds_name = Some dataset →
     is_versioned (heap c) dataset = false →
     get_dataset ds_name suggest version c = (Ok dataset, c)).
Proof.
  assert (Hgen : ∀ dataset c1,
     super_get_dataset ds_name suggest c = (Ok dataset, c1) →
     is_versioned (heap c1) dataset = false →
     get_dataset ds_name suggest version c = (Ok dataset, c1)).
  { intros dataset c1 Hget Hver. unfold get_dataset. eff. rewrite Hget.
    destruct version; [by rewrite Hver|done]. }
  split; [exact Hgen|]. intros dataset Hc Hver.
  apply Hgen; [by apply super_get_dataset_cached|done].
Qed.

Lemma add_registered c ds_name dataset :
  ds_name ∈ dom (_datasets c) →
  add ds_name dataset false c =
    (Raise (DatasetAlreadyExistsError (already_registered_message ds_name)), c).
Proof. intros Hin. unfold add. eff. by rewrite decide_True. Qed.

Lemma add_installs c ds_name dataset replace :
  replace = true ∨ ds_name ∉ dom (_datasets c) →
  ∃ c', add ds_name dataset replace c = (Ok tt, c') ∧
        _datasets c' = <[ds_name := dataset]> (_datasets c) ∧
        _resolved_ds_configs c' = <[ds_name := []]> (_resolved_ds_configs c) ∧
        heap c' = heap c ∧ _config c' = _config c ∧
        _load_versions c' = _load_versions c ∧ _save_version c' = _save_version c.
Proof.
  intros Hok. unfold add. eff. case_decide as Hin.
  - destruct Hok as [->|Hout]; [|done]. simpl. eexists. by split.
  - simpl. eexists. by split.
Qed.

(** C4: without [replace], [add] raises [DatasetAlreadyExistsError] exactly
    when the name is registered, and then changes nothing; in every other
    case, and always with [replace], it succeeds: the dataset is stored under
    the name, the resolved configuration of the name is the empty dict, the
    other entries are kept, and [get_dataset] returns the dataset added. *)
Theorem add_spec (c : catalog) ds_name dataset replace :
  ((∃ msg c', add ds_name dataset false c =
                (Raise (DatasetAlreadyExistsError msg), c')) ↔
   ds_name ∈ dom (_datasets c)) ∧
  (ds_name ∈ dom (_datasets c) →
   add ds_name dataset false c =
     (Raise (DatasetAlreadyExistsError (already_registered_message ds_name)), c)) ∧
  (replace = true ∨ ds_name ∉ dom (_datasets c) →
   ∃ c', add ds_name dataset replace c = (Ok tt, c') ∧
         _datasets c' = <[ds_name := dataset]> (_datasets c) ∧
         _resolved_ds_configs c' = <[ds_name := []]> (_resolved_ds_configs c) ∧
         heap c' = heap c ∧ _config c' = _config c ∧
         ∀ suggest, get_dataset ds_name suggest None c' = (Ok dataset, c')).
Proof.
  split_and!.
  - split.
    + intros (msg & c' & Hadd). destruct (decide (ds_name ∈ dom (_datasets c))); [done|].
      destruct (add_installs c ds_name dataset false) as (c'' & Hok & _); [by right|].
      congruence.
    + intros Hin. rewrite add_registered by done. by eauto.
  - apply add_registered.
  - intros Hok.
    destruct (add_installs c ds_name dataset replace Hok)
      as (c' & Hadd & Hds & Hcfg & Hheap & Hconfig & _).
    exists c'. split_and!; try done.
    intros suggest. apply get_dataset_cached. rewrite Hds. apply lookup_insert_eq.
Qed.

(** An object that exists keeps its class when the heap grows. *)
Lemma is_dataset_extend (h h' : gmap loc object) v :
  h ⊆ h' → (∀ l, v = PyRef l → l ∈ dom h) → is_dataset h' v = is_dataset h v.
Proof.
  intros Hsub Hv. destruct v as [| | | |l|]; try done. simpl.
  pose proof (Hv l eq_refl) as [o Ho]%elem_of_dom.
  by rewrite Ho, (lookup_weaken _ _ _ _ Ho Hsub).
Qed.

(** One round of the loop: the value is a dataset and is added itself, or a
    new in-memory dataset that holds it is created and added. *)
Lemma add_entry_eq replace ds_name value c :
  ∃ dataset c1,
    add_entry replace (ds_name, value) c = add ds_name dataset replace c1 ∧
    heap c ⊆ heap c1 ∧ _datasets c1 = _datasets c ∧
    _resolved_ds_configs c1 = _resolved_ds_configs c ∧
    match is_dataset (heap c) value with
    | Some original => dataset = original ∧ c1 = c
    | None => heap c !! dataset = None ∧
              heap c1 !! dataset = Some (ODataset (memory_dataset value))
    end.
Proof.
  unfold add_entry, MemoryDataset. eff.
  destruct (is_dataset (heap c) value) as [original|] eqn:E.
  - exists original, c. by split_and!.
  - set (l := fresh (dom (heap c))).
    assert (Hl : heap c !! l = None) by (apply not_elem_of_dom, is_fresh).
    exists l, (set_heap (insert l (ODataset (memory_dataset value))) c).
    split_and!; try done; simpl.
    + by apply insert_subseteq.
    + by rewrite lookup_insert_eq.
Qed.

(** The loop of [add_from_dict] stops at the first entry [add] refuses.  The
    entries before it are in place in the final state, the objects that
    existed are unchanged, and the names of the other entries are as they
    were. *)
Lemma add_from_dict_run replace datasets : ∀ c,
  NoDup datasets.*1 → refs_ok (heap c) datasets →
  ∃ processed rest r c',
    datasets = (processed ++ rest)%list ∧
    add_from_dict datasets replace c = (r, c') ∧
    heap c ⊆ heap c' ∧
    (∀ k, k ∉ processed.*1 →
          _datasets c' !! k = _datasets c !! k ∧
          _resolved_ds_configs c' !! k = _resolved_ds_configs c !! k) ∧
    (∀ entry, entry ∈ processed → stored_for (heap c) c' entry) ∧
    (replace = true ∨ ∀ k, k ∈ processed.*1 → k ∉ dom (_datasets c)) ∧
    match r with
    | Ok _ => rest = []
    | Raise e =>
        ∃ k v rest', rest = (k, v) :: rest' ∧ replace = false ∧
                     k ∈ dom (_datasets c) ∧
                     e = DatasetAlreadyExistsError (already_registered_message k)
    end.
Proof.
  induction datasets as [|[k v] ds IH]; intros c Hnd Hrefs.
  { exists [], [], (Ok tt), c. split_and!; try done.
    - by intros ? ?%elem_of_nil.
    - right. by intros ? ?%elem_of_nil. }
  rewrite fmap_cons in Hnd. apply NoDup_cons in Hnd as [Hk Hnd]. cbn [fst] in Hk.
  destruct (add_entry_eq replace k v c) as (l & c1 & Hentry & Hsub & Hds1 & Hcfg1 & Hl).
  unfold add_from_dict. cbn [for_each]. unfold bind at 1. rewrite Hentry.
  destruct (decide (replace = true ∨ k ∉ dom (_datasets c1))) as [Hok|Hno].
  - destruct (add_installs c1 k l replace Hok)
      as (c2 & Hadd & Hds2 & Hcfg2 & Hheap2 & _).
    rewrite Hadd.
    assert (Hsub2 : heap c ⊆ heap c2) by by rewrite Hheap2.
    destruct (IH c2 Hnd) as (processed & rest & r & c' & Hsplit & Hrun & Hsub'
                             & Hother & Hstored & Hfree & Hres).
    { intros k' l' Hin. eapply (subseteq_dom (heap c)); [done|].
      apply (Hrefs k' l'). by right. }
    exists ((k, v) :: processed), rest, r, c'.
    assert (Hkp : k ∉ processed.*1).
    { intros Hin. apply Hk. rewrite Hsplit, fmap_app. apply elem_of_app. by left. }
    split_and!.
    + by rewrite Hsplit.
    + exact Hrun.
    + by etrans.
    + intros k' Hk'. rewrite fmap_cons in Hk'. apply not_elem_of_cons in Hk' as [Hne Hk'].
      destruct (Hother k' Hk') as [-> ->].
      rewrite Hds2, Hcfg2, Hds1, Hcfg1. by rewrite !lookup_insert_ne.
    + intros entry [->|Hin]%elem_of_cons.
      * destruct (Hother k Hkp) as [Hd Hc]. exists l. cbn [fst snd].
        rewrite Hd, Hc, Hds2, Hcfg2, !lookup_insert_eq. split_and!; try done.
        destruct (is_dataset (heap c) v); [by destruct Hl|].
        destruct Hl as [Hnew Hmem]. split; [done|].
        eapply lookup_weaken; [|exact Hsub']. by rewrite Hheap2.
      * destruct (Hstored entry Hin) as (dataset & Hd & Hc & Hcase).
        exists dataset. split_and!; try done.
        rewrite (is_dataset_extend (heap c) (heap c2)) in Hcase; [|done|].
        -- destruct (is_dataset (heap c) entry.2); [done|].
           destruct Hcase as [Hnew Hmem]. split; [|done].
           destruct (heap c !! dataset) as [o|] eqn:Ho; [|done].
           by rewrite (lookup_weaken _ _ _ _ Ho Hsub2) in Hnew.
        -- intros l' Hl'. apply (Hrefs entry.1 l'). right.
           rewrite Hsplit. apply elem_of_app. left.
           destruct entry as [k' v']. simpl in Hl'. by subst v'.
    + destruct replace; [by left|right].
      destruct Hok as [?|Hk1]; [done|]. destruct Hfree as [?|Hfree]; [done|].
      intros k' Hk'. rewrite fmap_cons in Hk'.
      apply elem_of_cons in Hk' as [->|Hk']; [by rewrite <-Hds1|].
      intros Hin. apply (Hfree k' Hk'). rewrite Hds2, Hds1, dom_insert.
      apply elem_of_union. by right.
    + destruct r as [[]|e]; [done|].
      destruct Hres as (k' & v' & rest' & -> & -> & Hin & ->).
      exists k', v', rest'. split_and!; try done.
      rewrite Hds2, Hds1, dom_insert in Hin.
      apply elem_of_union in Hin as [->%elem_of_singleton|Hin]; [|done].
      exfalso. apply Hk. rewrite Hsplit, fmap_app. apply elem_of_app. right. by left.
  - destruct replace; [by destruct Hno; left|].
    assert (Hin : k ∈ dom (_datasets c1)).
    { destruct (decide (k ∈ dom (_datasets c1))); [done|]. by destruct Hno; right. }
    rewrite add_registered by done.
    exists [], ((k, v) :: ds), (Raise (DatasetAlreadyExistsError (already_registered_message k))), c1.
    split_and!; try done.
    + intros k' _. by rewrite Hds1, Hcfg1.
    + intros ? ?%elem_of_nil. done.
    + right. by intros ? ?%elem_of_nil.
    + exists k, v, ds. by rewrite <-Hds1.
Qed.

(** The first element of a list with a property is at one place only. *)
Lemma first_split_unique {A} (P : A → Prop) (l1 l1' l2 l2' : list A) x x' :
  (l1 ++ x :: l2 = l1' ++ x' :: l2')%list →
  Forall (λ y, ¬ P y) l1 → P x → Forall (λ y, ¬ P y) l1' → P x' →
  l1 = l1' ∧ x = x' ∧ l2 = l2'.
Proof.
  revert l1'. induction l1 as [|a l1 IH]; intros [|a' l1'] Heq H1 Hx H1' Hx';
    simpl in Heq; injection Heq as Ha Heq.
  - by subst.
  - subst a'. apply Forall_cons in H1' as [Hno _]. by destruct Hno.
  - subst a. apply Forall_cons in H1 as [Hno _]. by destruct Hno.
  - subst a'. apply Forall_cons in H1 as [_ H1]. apply Forall_cons in H1' as [_ H1'].
    destruct (IH l1' Heq H1 Hx H1' Hx') as (-> & -> & ->). done.
Qed.

(** Loading a registered in-memory dataset returns the value it holds. *)
Lemma load_memory_dataset c name dataset value :
  _datasets c !! name = Some dataset →
  heap c !! dataset = Some (ODataset (memory_dataset value)) →
  (load name None c).1 = Ok value.
Proof.
  intros Hname Hobj. unfold load. simpl. eff.
  rewrite (get_dataset_cached c name true dataset Hname).
  unfold dataset_load. eff. simpl. by rewrite Hobj.
Qed.

(** C5: [add_from_dict] takes the entries in order and gives each to [add].
    With [replace], or when no name of the mapping is registered, the call
    ends normally and every entry is in place: a value that is a dataset is
    registered itself, any other value is registered as a new in-memory
    dataset that holds it and that [load] returns it from.  Without
    [replace], the first name of the mapping that is registered makes the
    call fail with the [DatasetAlreadyExistsError] of [add] for that name;
    the entries before it are in place all the same, and that name and the
    names after it are as they were.  The objects that existed are
    unchanged in both cases. *)
Theorem add_from_dict_spec (c : catalog) datasets replace :
  NoDup datasets.*1 → refs_ok (heap c) datasets →
  (replace = true ∨ (∀ k, k ∈ datasets.*1 → k ∉ dom (_datasets c)) →
   ∃ c',
     add_from_dict datasets replace c = (Ok tt, c') ∧
     (∀ entry, entry ∈ datasets →
        stored_for (heap c) c' entry ∧
        (is_dataset (heap c) entry.2 = None → (load entry.1 None c').1 = Ok entry.2)) ∧
     (∀ l o, heap c !! l = Some o → heap c' !! l = Some o) ∧
     (∀ k, k ∉ datasets.*1 → _datasets c' !! k = _datasets c !! k)) ∧
  (∀ pre k v post,
     replace = false →
     datasets = (pre ++ (k, v) :: post)%list →
     (∀ k', k' ∈ pre.*1 → k' ∉ dom (_datasets c)) →
     k ∈ dom (_datasets c) →
     ∃ c',
       add_from_dict datasets replace c =
         (Raise (DatasetAlreadyExistsError
                   ("Dataset '" ++ k ++ "' has already been registered")), c') ∧
       (∀ entry, entry ∈ pre →
          stored_for (heap c) c' entry ∧
          (is_dataset (heap c) entry.2 = None → (load entry.1 None c').1 = Ok entry.2)) ∧
       (∀ l o, heap c !! l = Some o → heap c' !! l = Some o) ∧
       (∀ k', k' ∉ pre.*1 → _datasets c' !! k' = _datasets c !! k')).
Proof.
  intros Hnd Hrefs.
  destruct (add_from_dict_run replace datasets c Hnd Hrefs)
    as (processed & rest & r & c' & Hsplit & Hrun & Hsub & Hother & Hstored & Hnew & Hres).
  assert (Hplace : ∀ entry, entry ∈ processed →
            stored_for (heap c) c' entry ∧
            (is_dataset (heap c) entry.2 = None → (load entry.1 None c').1 = Ok entry.2)).
  { intros entry Hin. split; [by apply Hstored|]. intros Hlit.
    destruct (Hstored entry Hin) as (dataset & Hd & _ & Hcase).
    rewrite Hlit in Hcase. destruct Hcase as [_ Hmem].
    by eapply load_memory_dataset. }
  assert (Hheap : ∀ l o, heap c !! l = Some o → heap c' !! l = Some o).
  { intros l o Ho. by eapply lookup_weaken. }
  split.
  - intros Hok. destruct r as [[]|e].
    + subst rest. rewrite app_nil_r in Hsplit. subst processed.
      exists c'. split_and!; try done. intros k Hk. by destruct (Hother k Hk).
    + destruct Hres as (k & v & rest' & -> & -> & Hin & _).
      destruct Hok as [?|Hok]; [done|]. destruct (Hok k); [|done].
      rewrite Hsplit, fmap_app, fmap_cons. apply elem_of_app. right. by left.
  - intros pre k v post -> Hpre Hnone Hin.
    destruct Hnew as [?|Hnew]; [done|].
    destruct r as [[]|e].
    + subst rest. rewrite app_nil_r in Hsplit. subst processed.
      destruct (Hnew k); [|done]. rewrite Hpre, fmap_app, fmap_cons.
      apply elem_of_app. right. by left.
    + destruct Hres as (k1 & v1 & rest' & -> & _ & Hin1 & ->).
      destruct (first_split_unique (λ kv : string * pyval, kv.1 ∈ dom (_datasets c))
                  pre processed post rest' (k, v) (k1, v1)) as (<- & [= <- <-] & <-).
      * by rewrite <-Hpre.
      * apply Forall_forall. intros [k' v'] Hk'. apply Hnone.
        apply list_elem_of_fmap. by exists (k', v').
      * done.
      * apply Forall_forall. intros [k' v'] Hk'. apply Hnew.
        apply list_elem_of_fmap. by exists (k', v').
      * done.
      * exists c'. split_and!; try done. intros k' Hk'. by destruct (Hother k' Hk').
Qed.

(** C6: once the name has resolved to a dataset, [confirm] is the call of the
    dataset's own [confirm] if the dataset has that method, and otherwise it
    raises the [DatasetError] that names the dataset and says it has no
    [confirm] method. *)
Theorem confirm_spec (c c1 : catalog) name dataset :
  get_dataset name true None
    (log "INFO" ("Confirming dataset '" ++ name ++ "'") c).2 = (Ok dataset, c1) →
  confirm name c =
    if has_confirm (heap c1) dataset then dataset_confirm dataset c1
    else (Raise (DatasetError
                   ("Dataset '" ++ name ++ "' does not have 'confirm' method")), c1).
Proof.
  intros Hget. unfold confirm. unfold log in *. eff. simpl in *. eff.
  rewrite Hget. by destruct (has_confirm (heap c1) dataset).
Qed.

End Facts.
End KedroDataCatalogFacts.


(** * The statements at concrete catalogs *)

Module KedroDataCatalogExamples.
Import KedroDataCatalog KedroDataCatalogFacts Examples.

Lemma init_validates_load_versions_witness :
  ∃ c,
    @__init__ simple_externals None two_configs None four_versions None (new_catalog ∅) =
    (Raise (DatasetNotFoundError
              "'load_versions' keys [apples, zebra] are not found in the catalog."), c).
Proof.
  pose proof (@init_validates_load_versions simple_externals None two_configs None
                four_versions None (new_catalog ∅) _ eq_refl) as (_ & Hmsg & _).
  destruct Hmsg as (listed & Hrun & Hsorted & Hperm & _).
  { exists "zebra". split; [by left|].
    split; [|done]. apply not_elem_of_dom. by vm_compute. }
  eexists. rewrite Hrun.
  assert (Hlisted : listed = ["apples"; "zebra"]).
  { rewrite (PyFacts.sorted_unique ["zebra"; "apples"] listed Hsorted).
    - by vm_compute.
    - rewrite Hperm. by vm_compute. }
  by rewrite Hlisted.
Defined.

Lemma get_dataset_version_copy_witness :
  ∃ copy c',
    @get_dataset simple_externals "cars" true (Some v2024) three_datasets = (Ok copy, c') ∧
    copy ≠ 1%positive ∧
    heap c' !! 1%positive = Some (ODataset (csv_dataset "cars.csv")) ∧
    @get_dataset simple_externals "cars" true None c' = (Ok 1%positive, c').
Proof.
  destruct (@get_dataset_version_copy simple_externals three_datasets "cars" true v2024
              1%positive (csv_dataset "cars.csv"))
    as (copy & d' & c' & Hget & Hne & _ & _ & _ & _ & _ & _ & _ & Hcached & _ & _ & _ & Hlater);
    [by vm_compute..|].
  exists copy, c'. by split_and!.
Defined.

Lemma get_dataset_not_versioned_witness :
  @get_dataset simple_externals "seven" true (Some v2024) three_datasets
  = (Ok 2%positive, three_datasets).
Proof.
  apply (proj2 (@get_dataset_not_versioned simple_externals three_datasets "seven" true
                  (Some v2024))); by vm_compute.
Defined.

Lemma add_spec_witness :
  add "cars" 2%positive false three_datasets =
    (Raise (DatasetAlreadyExistsError "Dataset 'cars' has already been registered"),
     three_datasets) ∧
  (∃ c', add "cars" 2%positive true three_datasets = (Ok tt, c') ∧
         @get_dataset simple_externals "cars" true None c' = (Ok 2%positive, c')) ∧
  (∃ c', add "bikes" 2%positive false three_datasets = (Ok tt, c') ∧
         @get_dataset simple_externals "bikes" true None c' = (Ok 2%positive, c')).
Proof.
  assert (Hin : "cars" ∈ dom (_datasets three_datasets)).
  { apply elem_of_dom. exists 1%positive. by vm_compute. }
  assert (Hout : "bikes" ∉ dom (_datasets three_datasets)).
  { apply not_elem_of_dom. by vm_compute. }
  split_and!.
  - exact (proj1 (proj2 (@add_spec simple_externals three_datasets "cars" 2%positive false)) Hin).
  - destruct (proj2 (proj2 (@add_spec simple_externals three_datasets "cars" 2%positive true)))
      as (c' & Hadd & _ & _ & _ & _ & Hget); [by left|]. by exists c'.
  - destruct (proj2 (proj2 (@add_spec simple_externals three_datasets "bikes" 2%positive false)))
      as (c' & Hadd & _ & _ & _ & _ & Hget); [by right|]. by exists c'.
Defined.

Lemma add_from_dict_spec_witness :
  (∃ c',
     add_from_dict [("m", PyInt 42)] false three_datasets = (Ok tt, c') ∧
     (@load simple_externals "m" None c').1 = Ok (PyInt 42)) ∧
  (∃ c',
     add_from_dict mapping false three_datasets =
       (Raise (DatasetAlreadyExistsError "Dataset 'parts' has already been registered"),
        c') ∧
     stored_for (heap three_datasets) c' ("m", PyInt 42) ∧
     stored_for (heap three_datasets) c' ("fleet", PyRef 1%positive) ∧
     (@load simple_externals "m" None c').1 = Ok (PyInt 42) ∧
     _datasets c' !! "fleet" = Some 1%positive ∧
     _datasets c' !! "parts" = Some 3%positive ∧
     _datasets c' !! "never" = None).
Proof.
  split.
  { destruct (proj1 (@add_from_dict_spec simple_externals three_datasets
                       [("m", PyInt 42)] false
                       ltac:(apply (bool_decide_unpack _); by vm_compute)
                       ltac:(by intros k l [[=]|?%elem_of_nil]%elem_of_cons)))
      as (c' & Hrun & Hstored & _).
    { right. intros k [->|?%elem_of_nil]%elem_of_cons; [|done].
      apply not_elem_of_dom. by vm_compute. }
    exists c'. split; [exact Hrun|].
    by apply (proj2 (Hstored ("m", PyInt 42) ltac:(by left))). }
  assert (Hnd : NoDup mapping.*1) by (apply (bool_decide_unpack _); by vm_compute).
  assert (Hrefs : refs_ok (heap three_datasets) mapping).
  { intros k l Hin. apply elem_of_dom.
    repeat (apply elem_of_cons in Hin as [Heq|Hin];
            [inversion Heq; subst; by eexists|]).
    by apply elem_of_nil in Hin. }
  destruct (proj2 (@add_from_dict_spec simple_externals three_datasets mapping false
                     Hnd Hrefs)
              [("m", PyInt 42); ("fleet", PyRef 1%positive)] "parts" (PyStr "again")
              [("never", PyNone)] eq_refl eq_refl)
    as (c' & Hrun & Hstored & _ & Hother).
  { intros k' Hk'. apply not_elem_of_dom.
    repeat (apply elem_of_cons in Hk' as [->|Hk']; [by vm_compute|]).
    by apply elem_of_nil in Hk'. }
  { apply elem_of_dom. exists 3%positive. by vm_compute. }
  destruct (Hstored ("m", PyInt 42)) as [Hm Hload]; [by left|].
  destruct (Hstored ("fleet", PyRef 1%positive)) as [Hfleet _]; [right; by left|].
  exists c'. split_and!.
  - exact Hrun.
  - exact Hm.
  - exact Hfleet.
  - by apply Hload.
  - destruct Hfleet as (dataset & Hd & _ & Hcase). cbn [fst snd] in Hd, Hcase.
    vm_compute in Hcase. subst dataset. exact Hd.
  - rewrite Hother; [by vm_compute|].
    intros Hin. repeat (apply elem_of_cons in Hin as [?|Hin]; [done|]).
    by apply elem_of_nil in Hin.
  - rewrite Hother; [by vm_compute|].
    intros Hin. repeat (apply elem_of_cons in Hin as [?|Hin]; [done|]).
    by apply elem_of_nil in Hin.
Defined.

Lemma confirm_spec_witness :
  (∃ c', @confirm simple_externals "cars" three_datasets =
           (Raise (DatasetError "Dataset 'cars' does not have 'confirm' method"), c')) ∧
  (∃ c', @confirm simple_externals "parts" three_datasets = (Ok tt, c')).
Proof.
  split.
  - eexists. by rewrite (@confirm_spec simple_externals three_datasets _ "cars" 1%positive eq_refl).
  - eexists. by rewrite (@confirm_spec simple_externals three_datasets _ "parts" 3%positive eq_refl).
Defined.

End KedroDataCatalogExamples.

(** * Further properties of [re.sub] for a pattern [C+] *)

Module ReMore.
Import Re.
Local Open Scope list_scope.
Section Sub.
Context {char : Type} (cls : char → bool) (repl : list char).

(** With a replacement outside the class, nothing of the class is left. *)
Lemma sub_plus_outside s :
  Forall (λ c, cls c = false) repl →
  Forall (λ c, cls c = false) (sub_plus cls repl s).
Proof.
  intros Hrepl. rewrite ReFacts.sub_plus_runs. unfold replace_runs.
  apply Forall_concat, Forall_fmap.
  eapply Forall_impl; [apply (ReFacts.runs_is_run cls)|].
  intros [[] r] [_ Hr]; simpl in *; [done|exact Hr].
Qed.

(** A string with a character of the class has the replacement in its image. *)
Lemma sub_plus_changed s :
  Exists (λ c, cls c = true) s →
  ∃ pre post, sub_plus cls repl s = pre ++ repl ++ post.
Proof.
  induction s as [|c s IH]; intros Hex; [by apply Exists_nil in Hex|].
  simp sub_plus. destruct (cls c) eqn:Hc; simpl.
  - by exists [], (sub_plus cls repl (match_end cls s)).
  - apply Exists_cons in Hex as [Hex|Hex]; [congruence|].
    destruct (IH Hex) as (pre & post & ->). by exists (c :: pre), post.
Qed.
End Sub.
End ReMore.

(** * Further properties of the sanitiser *)

Module SanitizeMore.
Import MoreExamples.
Local Open Scope list_scope.

Lemma underscores_word : Forall (λ c, is_nonword_char c = false) (chars "__").
Proof. apply (bool_decide_unpack _). by vm_compute. Qed.

Lemma double_underscore_app pre post :
  double_underscore (pre ++ list_ascii_of_string "__" ++ post) = true.
Proof.
  induction pre as [|a pre IH]; [done|].
  change ((a :: pre) ++ list_ascii_of_string "__" ++ post)
    with (a :: (pre ++ list_ascii_of_string "__" ++ post)).
  destruct (pre ++ list_ascii_of_string "__" ++ post) as [|b rest] eqn:E; [done|].
  change (double_underscore (a :: b :: rest))
    with (Ascii.eqb a "_" && Ascii.eqb b "_" || double_underscore (b :: rest)).
  rewrite IH. apply orb_true_r.
Qed.

Lemma word_dec (s : list (list ascii)) :
  Forall (λ c, is_word_char c = true) s ∨ Exists (λ c, is_nonword_char c = true) s.
Proof.
  induction s as [|c s [IH|IH]].
  - left. constructor.
  - destruct (is_word_char c) eqn:Hc.
    + left. by constructor.
    + right. left. unfold is_nonword_char. by rewrite Hc.
  - right. by right.
Qed.

(** The substitution gives word characters only. *)
Lemma sub_plus_words (s : list (list ascii)) :
  Forall (λ c, is_word_char c = true) (Re.sub_plus is_nonword_char (chars "__") s).
Proof.
  eapply Forall_impl; [apply ReMore.sub_plus_outside, underscores_word|].
  intros c. apply SanitizeFacts.nonword_false_iff.
Qed.

(** The characters of the sanitised key are those the substitution gives. *)
Lemma sub_nonword_chars_chars s :
  chars (_sub_nonword_chars s) = Re.sub_plus is_nonword_char (chars "__") (chars s).
Proof.
  unfold _sub_nonword_chars, str_of_chars, WORDS_REGEX_PATTERN.
  unfold chars at 1. rewrite list_ascii_of_string_of_list_ascii.
  apply SanitizeFacts.utf8_chars_whole.
  eapply Forall_impl; [apply sub_plus_words|]. apply SanitizeFacts.word_whole.
Qed.

Lemma sub_nonword_chars_bytes s :
  list_ascii_of_string (_sub_nonword_chars s) =
  concat (Re.sub_plus is_nonword_char (chars "__") (chars s)).
Proof. unfold _sub_nonword_chars, str_of_chars. apply list_ascii_of_string_of_list_ascii. Qed.

Lemma sub_nonword_chars_words s :
  Forall (λ c, is_word_char c = true) (chars (_sub_nonword_chars s)).
Proof. rewrite sub_nonword_chars_chars. apply sub_plus_words. Qed.

Lemma sub_nonword_chars_fixed s :
  Forall (λ c, is_word_char c = true) (chars s) → _sub_nonword_chars s = s.
Proof.
  intros Hw. unfold _sub_nonword_chars, WORDS_REGEX_PATTERN. rewrite ReFacts.sub_plus_id.
  - apply SanitizeFacts.str_of_chars_chars.
  - eapply Forall_impl; [exact Hw|]. intros c. apply SanitizeFacts.nonword_false_iff.
Qed.

Lemma sub_nonword_chars_twice s :
  _sub_nonword_chars (_sub_nonword_chars s) = _sub_nonword_chars s.
Proof. apply sub_nonword_chars_fixed, sub_nonword_chars_words. Qed.

Lemma sub_nonword_chars_underscores s :
  Exists (λ c, is_nonword_char c = true) (chars s) →
  double_underscore (list_ascii_of_string (_sub_nonword_chars s)) = true.
Proof.
  intros Hex. rewrite sub_nonword_chars_bytes.
  destruct (ReMore.sub_plus_changed is_nonword_char (chars "__") _ Hex)
    as (pre & post & ->).
  rewrite !concat_app.
  replace (concat (chars "__")) with (list_ascii_of_string "__") by (by vm_compute).
  apply double_underscore_app.
Qed.

(** Only the name [_original_names] has the key [_original_names]. *)
Lemma sub_nonword_chars_reserved s :
  _sub_nonword_chars s = "_original_names" ↔ s = "_original_names".
Proof.
  split; [|intros ->; by vm_compute].
  intros Hs. destruct (word_dec (chars s)) as [Hw|Hex].
  - by rewrite sub_nonword_chars_fixed in Hs.
  - apply sub_nonword_chars_underscores in Hex. rewrite Hs in Hex.
    by vm_compute in Hex.
Qed.

(** X1: the sanitised key of any name consists of word characters only. *)
Theorem sanitised_key_word_only (dataset_name : string) :
  Forall (λ c, is_word_char c = true) (chars (_sub_nonword_chars dataset_name)).
Proof. apply sub_nonword_chars_words. Qed.

(** X2: sanitising is idempotent: a sanitised key is its own sanitised key. *)
Theorem sanitise_idempotent (dataset_name : string) :
  _sub_nonword_chars (_sub_nonword_chars dataset_name) = _sub_nonword_chars dataset_name.
Proof. apply sub_nonword_chars_twice. Qed.

(** X3: a name is its own sanitised key exactly when it has word characters
    only, and the key of any other name has two underscores in a row. *)
Theorem sanitise_changes (dataset_name : string) :
  (_sub_nonword_chars dataset_name = dataset_name ↔
   Forall (λ c, is_word_char c = true) (chars dataset_name)) ∧
  (_sub_nonword_chars dataset_name ≠ dataset_name →
   double_underscore (list_ascii_of_string (_sub_nonword_chars dataset_name)) = true).
Proof.
  split.
  - split; [|apply sub_nonword_chars_fixed].
    intros Heq. rewrite <-Heq. apply sub_nonword_chars_words.
  - intros Hne. destruct (word_dec (chars dataset_name)) as [Hw|Hex].
    + by destruct Hne; apply sub_nonword_chars_fixed.
    + by apply sub_nonword_chars_underscores.
Qed.

Lemma sanitise_changes_witness :
  _sub_nonword_chars "ns.raw données" ≠ "ns.raw données" ∧
  double_underscore (list_ascii_of_string (_sub_nonword_chars "ns.raw données")) = true ∧
  _sub_nonword_chars "ns.raw données" = "ns__raw__données".
Proof.
  assert (Hne : _sub_nonword_chars "ns.raw données" ≠ "ns.raw données") by (by vm_compute).
  split; [exact Hne|]. split; [|by vm_compute].
  exact (proj2 (sanitise_changes "ns.raw données") Hne).
Defined.

End SanitizeMore.

(** * Further properties of [_FrozenDatasets] and [DataCatalogOld] *)

Module FrozenDatasetsMore.
Import _FrozenDatasets Examples MoreExamples.

Lemma for_each_raise {S A} (body : A → Eff S unit) x l σ e σ' :
  body x σ = (Raise e, σ') → for_each (x :: l) body σ = (Raise e, σ').
Proof. intros Hx. cbn [for_each]. unfold bind. by rewrite Hx. Qed.

Lemma for_each_step {S A} (body : A → Eff S unit) x l (σ σ' : S) :
  body x σ = (Ok tt, σ') → for_each (x :: l) body σ = for_each l body σ'.
Proof. intros Hx. cbn [for_each]. unfold bind. by rewrite Hx. Qed.

(** One round of the loop over a dict, for a name other than
    [_original_names]. *)
Lemma register_eq (σ : state) k v l names :
  k ≠ "_original_names" →
  self__dict__ σ !! "_original_names" = Some (PyRef l) →
  heap σ !! l = Some (ODict names) →
  register (k, v) σ =
    (Ok tt, {| self__dict__ := <[_sub_nonword_chars k := v]> (self__dict__ σ);
               heap := <[l := ODict (od_set names k (PyStr ""))]> (heap σ) |}).
Proof.
  intros Hk Hattr Hnames.
  assert (Hkey : _sub_nonword_chars k ≠ "_original_names").
  { by rewrite SanitizeMore.sub_nonword_chars_reserved. }
  unfold register, getattr, dict_setitem, dict_items.
  cbv [mbind eff_bind bind gets modify ret]. simpl.
  rewrite lookup_insert_ne by done. rewrite Hattr. simpl. by rewrite Hnames.
Qed.

(** One round of the loop for a dataset named [_original_names]: the dataset
    takes the place of the record of names, and recording the name in it
    fails. *)
Lemma register_reserved (σ : state) v :
  not_a_dict (heap σ) v →
  ∃ σ', register ("_original_names", v) σ = (Raise (Unsupported "__setitem__"), σ').
Proof.
  intros Hv. unfold register, getattr, dict_setitem, dict_items.
  cbv [mbind eff_bind bind gets modify ret]. simpl.
  replace (_sub_nonword_chars "_original_names") with "_original_names"
    by (symmetry; by apply SanitizeMore.sub_nonword_chars_reserved).
  rewrite lookup_insert_eq. simpl.
  destruct v as [| | | |l'|]; try by eexists.
  destruct (Hv l' eq_refl) as [d Hd]. rewrite Hd. by eexists.
Qed.

Lemma for_each_register_reserved items : ∀ (σ : state) l names,
  Exists (λ kv, kv.1 = "_original_names") items →
  Forall (λ kv, not_a_dict (heap σ) kv.2) items →
  self__dict__ σ !! "_original_names" = Some (PyRef l) →
  heap σ !! l = Some (ODict names) →
  ∃ σ', for_each items register σ = (Raise (Unsupported "__setitem__"), σ').
Proof.
  induction items as [|[k v] items IH]; intros σ l names Hex Hvals Hattr Hnames.
  { by apply Exists_nil in Hex. }
  apply Forall_cons in Hvals as [Hv Hvals]. simpl in Hv.
  destruct (decide (k = "_original_names")) as [->|Hk].
  - destruct (register_reserved σ v Hv) as [σ' Hreg].
    exists σ'. by apply for_each_raise.
  - apply Exists_cons in Hex as [Hex|Hex]; [done|].
    rewrite (for_each_step _ _ _ _ _ (register_eq σ k v l names Hk Hattr Hnames)).
    apply (IH _ l (od_set names k (PyStr ""))); simpl; try done.
    + eapply Forall_impl; [exact Hvals|]. intros [k' v'] Hv' l' Hl'. simpl in *.
      destruct (Hv' l' Hl') as [d Hd]. exists d.
      rewrite lookup_insert_ne; [done|]. congruence.
    + rewrite lookup_insert_ne; [done|].
      by rewrite SanitizeMore.sub_nonword_chars_reserved.
    + by rewrite lookup_insert_eq.
Qed.

Lemma not_reserved_sanitised (items : list (string * pyval)) :
  Forall (λ kv, kv.1 ≠ "_original_names") items →
  Forall (λ kv, _sub_nonword_chars kv.1 ≠ "_original_names") items.
Proof.
  intros Hitems. eapply Forall_impl; [exact Hitems|].
  intros kv Hkv. by rewrite SanitizeMore.sub_nonword_chars_reserved.
Qed.

(** The state of [__init__] when it enters its loop. *)
Lemma init_eq collections (h : gmap loc object) :
  construct collections h =
  for_each collections merge
    {| self__dict__ := {["_original_names" := PyRef (fresh (dom h))]};
       heap := <[fresh (dom h) := ODict []]> h |}.
Proof.
  unfold construct, __init__, new_dict. cbv [mbind eff_bind bind].
  rewrite FrozenDatasetsFacts.setattr_names_stores. simpl.
  unfold set__dict__, set_heap. simpl. by rewrite insert_empty.
Qed.

Lemma construct_dict_raises items (h : gmap loc object) :
  Exists (λ kv, kv.1 = "_original_names") items →
  Forall (λ kv, not_a_dict h kv.2) items →
  ∃ σ, construct [CDict items] h = (Raise (Unsupported "__setitem__"), σ).
Proof.
  intros Hex Hvals. rewrite init_eq.
  destruct (for_each_register_reserved items
              {| self__dict__ := {["_original_names" := PyRef (fresh (dom h))]};
                 heap := <[fresh (dom h) := ODict []]> h |}
              (fresh (dom h)) [] Hex) as [σ' Hloop]; simpl.
  - eapply Forall_impl; [exact Hvals|]. intros [k v] Hv l Hl. simpl in *.
    destruct (Hv l Hl) as [d Hd]. exists d.
    rewrite lookup_insert_ne; [done|]. intros <-.
    pose proof (is_fresh (dom h)) as Hfresh. apply Hfresh, elem_of_dom. by eexists.
  - by rewrite lookup_singleton_eq.
  - by rewrite lookup_insert_eq.
  - exists σ'. cbn [for_each merge]. unfold bind. by rewrite Hloop.
Qed.

(** X4: a dict of datasets makes a namespace exactly when none of them is
    named [_original_names]; with such a name the constructor fails, with the
    error of an item assignment on a dataset. *)
Theorem construct_dict_iff items (h : gmap loc object) :
  Forall (λ kv, not_a_dict h kv.2) items →
  ((∃ σ, construct [CDict items] h = (Ok tt, σ)) ↔
   Forall (λ kv, kv.1 ≠ "_original_names") items) ∧
  (Exists (λ kv, kv.1 = "_original_names") items →
   ∃ σ, construct [CDict items] h = (Raise (Unsupported "__setitem__"), σ)).
Proof.
  intros Hvals. split; [|by intros Hex; apply construct_dict_raises].
  split.
  - intros [σ Hok].
    destruct (decide (Forall (λ kv : string * pyval, kv.1 ≠ "_original_names") items))
      as [|Hno]; [done|].
    apply not_Forall_Exists in Hno; [|apply _].
    destruct (construct_dict_raises items h) as [σ' Hraise]; [|done|congruence].
    eapply Exists_impl; [exact Hno|]. intros kv Hkv. simpl in Hkv.
    by destruct (decide (kv.1 = "_original_names")).
  - intros Hnames. eexists.
    apply FrozenDatasetsFacts.construct_dict. by apply not_reserved_sanitised.
Qed.

Lemma construct_dict_iff_witness :
  (∃ σ, construct [CDict colliding] objects = (Ok tt, σ)) ∧
  (∃ σ, construct [CDict reserved] objects = (Raise (Unsupported "__setitem__"), σ)).
Proof.
  assert (Hobjects : ∀ v, v ∈ [PyRef 1%positive; PyRef 2%positive; PyRef 3%positive] →
                          not_a_dict objects v).
  { intros v Hv l ->.
    repeat (apply elem_of_cons in Hv as [[= ->]|Hv]; [by eexists|]).
    by apply elem_of_nil in Hv. }
  assert (Hc : Forall (λ kv : string * pyval, not_a_dict objects kv.2) colliding).
  { repeat constructor; apply Hobjects; simpl; set_solver. }
  assert (Hr : Forall (λ kv : string * pyval, not_a_dict objects kv.2) reserved).
  { repeat constructor; apply Hobjects; simpl; set_solver. }
  split.
  - apply (proj1 (construct_dict_iff colliding objects Hc)). by repeat constructor.
  - apply (proj2 (construct_dict_iff reserved objects Hr)). right. by left.
Defined.

(** X6: in a namespace built from one dict none of whose names is
    [_original_names], every name of the dict is enumerated, and indexing by
    any name returns the dataset of the last item of the dict that has the
    same sanitised key; reading the attribute of the sanitised key returns
    that dataset too, unless the key is [__class__], [__dict__] or
    [__weakref__], which the type answers itself. *)
Theorem dict_namespace_last_wins items (h : gmap loc object) pre name dataset post name' :
  Forall (λ kv, kv.1 ≠ "_original_names") items →
  items = (pre ++ (name, dataset) :: post)%list →
  Forall (λ kv, _sub_nonword_chars kv.1 ≠ _sub_nonword_chars name) post →
  _sub_nonword_chars name' = _sub_nonword_chars name →
  ∃ σ names,
    construct [CDict items] h = (Ok tt, σ) ∧
    __getitem__ name' σ = (Ok dataset, σ) ∧
    (_sub_nonword_chars name ∉ od_keys data_descriptors →
     __getattribute__ (_sub_nonword_chars name) σ = (Ok dataset, σ)) ∧
    _ipython_key_completions_ σ = (Ok names, σ) ∧
    ∀ k, k ∈ names ↔ k ∈ items.*1.
Proof.
  intros Hitems. apply FrozenDatasetsFacts.construct_dict_last_wins.
  by apply not_reserved_sanitised.
Qed.

Lemma dict_namespace_last_wins_witness :
  ∃ σ names,
    construct [CDict colliding] objects = (Ok tt, σ) ∧
    __getitem__ "a.b" σ = (Ok (PyRef 2%positive), σ) ∧
    __getattribute__ "a__b" σ = (Ok (PyRef 2%positive), σ) ∧
    _ipython_key_completions_ σ = (Ok names, σ) ∧
    ∀ k, k ∈ names ↔ k ∈ ["a.b"; "cars"; "a b"].
Proof.
  destruct (dict_namespace_last_wins colliding objects
              [("a.b", PyRef 1%positive); ("cars", PyRef 3%positive)]
              "a b" (PyRef 2%positive) [] "a.b")
    as (σ & names & Hrun & Hitem & Hattr & Henum & Hnames).
  - by repeat constructor.
  - done.
  - constructor.
  - by vm_compute.
  - exists σ, names. split_and!; try done.
    replace "a__b" with (_sub_nonword_chars "a b") by (by vm_compute).
    apply Hattr. apply (bool_decide_unpack _). by vm_compute.
Defined.

(** Merging a namespace whose record of names is the dict at [l]. *)
Lemma merge_frozen_eq d h other l names :
  other !! "_original_names" = Some (PyRef l) →
  h !! l = Some (ODict names) →
  merge (CFrozen other) {| self__dict__ := d; heap := h |} =
    (Ok tt, {| self__dict__ := other ∪ d;
               heap := <[l := ODict (od_update names names)]> h |}).
Proof.
  intros Hother Hnames.
  assert (Hself : (other ∪ d) !! "_original_names" = Some (PyRef l)).
  { by apply lookup_union_Some_l. }
  unfold merge, dict_update, dict_items, set__dict__, set_heap.
  cbv [mbind eff_bind bind gets modify ret]. cbn [self__dict__ heap].
  rewrite FrozenDatasetsFacts.getattr_names, Hself. cbv [ret].
  cbn [self__dict__ heap]. rewrite Hnames.
  rewrite FrozenDatasetsFacts.getattr_names, Hother. cbv [ret].
  by repeat (cbn [self__dict__ heap]; rewrite Hnames).
Qed.

Lemma union_reserved (d : gmap string pyval) v w :
  d !! "_original_names" = Some v → d ∪ {["_original_names" := w]} = d.
Proof.
  intros Hd. apply map_eq. intros k. destruct (d !! k) as [x|] eqn:Hk.
  - by apply lookup_union_Some_l.
  - rewrite lookup_union_r by done. apply lookup_singleton_ne. congruence.
Qed.

(** X5: a namespace built from a namespace and then a dict, as
    [_FrozenDatasets(old, {name: dataset})], has the attributes of the old one
    overwritten by the items of the dict in order, keeps every attribute
    whose key no item sanitises to, and enumerates the names of the old one
    and the names of the dict. *)
Theorem construct_extend d items (h : gmap loc object) l names :
  d !! "_original_names" = Some (PyRef l) →
  h !! l = Some (ODict names) →
  Forall (λ kv, kv.1 ≠ "_original_names") items →
  ∃ σ enumerated,
    construct [CFrozen d; CDict items] h = (Ok tt, σ) ∧
    self__dict__ σ = dict_after items d ∧
    (∀ key, Forall (λ kv, _sub_nonword_chars kv.1 ≠ key) items →
            self__dict__ σ !! key = d !! key) ∧
    _ipython_key_completions_ σ = (Ok enumerated, σ) ∧
    (∀ k, k ∈ enumerated ↔ k ∈ od_keys names ∨ k ∈ items.*1).
Proof.
  intros Hd Hnames Hitems.
  assert (Hfresh : fresh (dom h) ≠ l).
  { intros Heq. pose proof (is_fresh (dom h)) as Hf. apply Hf.
    rewrite Heq. apply elem_of_dom. by eexists. }
  assert (Hrun : construct [CFrozen d; CDict items] h =
    (Ok tt, {| self__dict__ := dict_after items d;
               heap := <[l := ODict (names_after items (od_update names names))]>
                         (<[fresh (dom h) := ODict []]> h) |})).
  { rewrite FrozenDatasetsMore.init_eq.
    rewrite (for_each_step _ _ _ _ _
               (merge_frozen_eq _ _ d l names Hd
                  ltac:(by rewrite lookup_insert_ne))).
    rewrite (union_reserved d _ _ Hd).
    cbn [for_each merge]. unfold bind at 1.
    rewrite (FrozenDatasetsFacts.for_each_register items _ l (od_update names names));
      [|by apply not_reserved_sanitised|done|by apply lookup_insert_eq].
    cbn [self__dict__ heap]. unfold ret. by rewrite insert_insert_eq. }
  eexists _, _. split; [exact Hrun|]. split_and!.
  - done.
  - intros key Hkey. by apply FrozenDatasetsFacts.dict_after_other.
  - unfold _ipython_key_completions_, dict_items.
    cbv [mbind eff_bind bind gets ret]. cbn [self__dict__ heap].
    rewrite FrozenDatasetsFacts.getattr_names.
    rewrite FrozenDatasetsFacts.dict_after_other by by apply not_reserved_sanitised.
    rewrite Hd. cbv [ret]. cbn. by rewrite lookup_insert_eq.
  - intros k. rewrite FrozenDatasetsFacts.od_keys_names_after.
    rewrite FrozenDatasetsFacts.od_keys_update by done. tauto.
Qed.

Lemma construct_extend_witness :
  ∃ σ enumerated,
    construct [CFrozen (self__dict__ two_datasets); CDict planes] (heap two_datasets)
      = (Ok tt, σ) ∧
    self__dict__ σ !! "cars" = Some (PyRef 1%positive) ∧
    self__dict__ σ !! "planes" = Some (PyRef 3%positive) ∧
    _ipython_key_completions_ σ = (Ok enumerated, σ) ∧
    (∀ k, k ∈ enumerated ↔ k ∈ ["cars"; "boats"] ∨ k ∈ ["planes"]).
Proof.
  destruct (construct_extend (self__dict__ two_datasets) planes (heap two_datasets)
              4%positive [("cars", PyStr ""); ("boats", PyStr "")])
    as (σ & enumerated & Hrun & Hdict & Hkeep & Henum & Hmem);
    [by vm_compute|by vm_compute|by repeat constructor|].
  exists σ, enumerated. split_and!; try done.
  - rewrite Hkeep; [by vm_compute|]. repeat constructor. by vm_compute.
  - rewrite Hdict. by vm_compute.
Defined.

(** X20: merging a namespace into the one under construction gives it the
    attributes of the merged namespace, which shadow its own, and makes the
    names of the merged namespace the names it enumerates. *)
Theorem merge_replaces_names (σ : state) other l names :
  other !! "_original_names" = Some (PyRef l) →
  heap σ !! l = Some (ODict names) →
  ∃ σ', merge (CFrozen other) σ = (Ok tt, σ') ∧
        self__dict__ σ' = other ∪ self__dict__ σ ∧
        _ipython_key_completions_ σ' = (Ok (od_keys names), σ').
Proof. apply FrozenDatasetsFacts.merge_frozen_names. Qed.

Lemma merge_replaces_names_witness :
  (_ipython_key_completions_ first_registered).1 = Ok ["a.b"] ∧
  ∃ σ', merge (CFrozen (self__dict__ inner)) first_registered = (Ok tt, σ') ∧
        self__dict__ σ' = self__dict__ inner ∪ self__dict__ first_registered ∧
        _ipython_key_completions_ σ' = (Ok ["a b"], σ').
Proof.
  split; [by vm_compute|].
  apply (merge_replaces_names first_registered (self__dict__ inner)
           4%positive [("a b", PyStr "")]); by vm_compute.
Defined.

(** X7: indexing sanitises its argument, so indexing by a sanitised key is
    indexing by any name that has this key; the lookup is that of the
    attribute, for every key but [__class__], [__dict__] and [__weakref__],
    and a key that [__dict__] does not have gives a [KeyError] that carries
    the sanitised key. *)
Theorem getitem_sanitised (σ : state) (key : string) :
  __getitem__ (_sub_nonword_chars key) σ = __getitem__ key σ ∧
  (∀ v, self__dict__ σ !! _sub_nonword_chars key = Some v →
        __getitem__ key σ = (Ok v, σ) ∧
        (_sub_nonword_chars key ∉ od_keys data_descriptors →
         __getattribute__ (_sub_nonword_chars key) σ = (Ok v, σ))) ∧
  (self__dict__ σ !! _sub_nonword_chars key = None →
   __getitem__ key σ = (Raise (KeyError (_sub_nonword_chars key)), σ)).
Proof.
  unfold __getitem__, __getattribute__. cbv [mbind eff_bind bind gets].
  rewrite SanitizeMore.sub_nonword_chars_twice. split_and!.
  - done.
  - intros v Hv. rewrite Hv. split; [done|]. intros Hkey.
    by apply FrozenDatasetsFacts.getattr_dict.
  - by intros ->.
Qed.

Lemma getitem_sanitised_witness :
  __getitem__ "cars" two_datasets = (Ok (PyRef 1%positive), two_datasets) ∧
  __getattribute__ "cars" two_datasets = (Ok (PyRef 1%positive), two_datasets) ∧
  __getitem__ "ca rs" two_datasets = (Raise (KeyError "ca__rs"), two_datasets).
Proof.
  destruct (proj1 (proj2 (getitem_sanitised two_datasets "cars")) (PyRef 1%positive))
    as [Hitem Hattr]; [by vm_compute|].
  split_and!.
  - exact Hitem.
  - replace "cars" with (_sub_nonword_chars "cars") at 1 by (by vm_compute).
    apply Hattr. apply (bool_decide_unpack _). by vm_compute.
  - apply (proj2 (proj2 (getitem_sanitised two_datasets "ca rs"))). by vm_compute.
Defined.

(** X8: whatever the key and the value, [__setattr__] leaves the heap and
    every attribute other than [_original_names] as they were, whether it
    raises or not. *)
Theorem setattr_frame (σ : state) (key : string) (value : pyval) :
  heap (__setattr__ key value σ).2 = heap σ ∧
  ∀ k, k ≠ "_original_names" →
       self__dict__ (__setattr__ key value σ).2 !! k = self__dict__ σ !! k.
Proof.
  unfold __setattr__. case_decide as Hkey.
  - subst key. split; [done|]. intros k Hk. simpl. by rewrite lookup_insert_ne.
  - cbv [mbind eff_bind bind gets raise]. by case_decide.
Qed.

Lemma setattr_frame_witness :
  self__dict__ (__setattr__ "_original_names" PyNone two_datasets).2 !! "cars"
  = self__dict__ two_datasets !! "cars".
Proof. by apply (proj2 (setattr_frame two_datasets "_original_names" PyNone)). Defined.


End FrozenDatasetsMore.

Module DataCatalogOldFacts.
Import _FrozenDatasets Examples MoreExamples.

Lemma od_set_new (names : list (string * pyval)) k v :
  k ∉ od_keys names → od_set names k v = (names ++ [(k, v)])%list.
Proof.
  unfold od_keys. induction names as [|[k0 v0] names IH]; [done|].
  rewrite fmap_cons. intros [Hne Hk]%not_elem_of_cons. simpl in *.
  rewrite decide_False by done. by rewrite IH.
Qed.

(** Names that are new and distinct are recorded in order, after the names
    recorded before. *)
Lemma od_keys_names_after_NoDup items : ∀ names,
  NoDup (od_keys names ++ items.*1) →
  od_keys (names_after items names) = (od_keys names ++ items.*1)%list.
Proof.
  unfold names_after.
  induction items as [|[k v] items IH]; intros names Hnd.
  - by rewrite app_nil_r.
  - rewrite fmap_cons in *. cbn [foldl fst snd].
    assert (Hk : k ∉ od_keys names).
    { apply NoDup_app in Hnd as (_ & Hdisj & _). intros Hin.
      apply (Hdisj k Hin). by left. }
    rewrite od_set_new by done.
    rewrite IH.
    + unfold od_keys. rewrite fmap_app. simpl. by rewrite <-app_assoc.
    + unfold od_keys in *. rewrite fmap_app. simpl.
      by rewrite <-app_assoc.
Qed.

Section Init.
Variable add_feed_dict : list (string * pyval) → Eff DataCatalogOld.catalog unit.

Lemma new_frozen_datasets_ok items (c : DataCatalogOld.catalog) :
  Forall (λ kv, kv.1 ≠ "_original_names") items →
  DataCatalogOld.new_frozen_datasets items c =
    (Ok (dict_after items {["_original_names" := PyRef (fresh (dom (DataCatalogOld.heap c)))]}),
     {| DataCatalogOld._datasets := DataCatalogOld._datasets c;
        DataCatalogOld.datasets := DataCatalogOld.datasets c;
        DataCatalogOld._dataset_patterns := DataCatalogOld._dataset_patterns c;
        DataCatalogOld._load_versions := DataCatalogOld._load_versions c;
        DataCatalogOld._save_version := DataCatalogOld._save_version c;
        DataCatalogOld._default_pattern := DataCatalogOld._default_pattern c;
        DataCatalogOld.heap :=
          <[fresh (dom (DataCatalogOld.heap c)) := ODict (names_after items [])]>
            (DataCatalogOld.heap c) |}).
Proof.
  intros Hitems. unfold DataCatalogOld.new_frozen_datasets.
  by rewrite (FrozenDatasetsFacts.construct_dict items _
                (FrozenDatasetsMore.not_reserved_sanitised items Hitems)).
Qed.

(** X9: a [DataCatalogOld] made without a feed dict from datasets none of
    which is named [_original_names] keeps the datasets it was given and has
    a namespace that enumerates their names in the order of the dict and in
    which indexing by a name returns the dataset of that name, or the dataset
    of the last name with the same sanitised key; the objects that existed
    are unchanged.  With a dataset named [_original_names] the constructor
    fails. *)
Theorem old_catalog_init datasets feed_dict dataset_patterns load_versions
    save_version default_pattern (h : gmap loc object) :
  default [] feed_dict = [] →
  NoDup (default [] datasets).*1 →
  Forall (λ kv, not_a_dict h kv.2) (default [] datasets) →
  (Exists (λ kv, kv.1 = "_original_names") (default [] datasets) →
   ∃ c, DataCatalogOld.__init__ add_feed_dict datasets feed_dict dataset_patterns
          load_versions save_version default_pattern (DataCatalogOld.new_catalog h)
        = (Raise (Unsupported "__setitem__"), c)) ∧
  (Forall (λ kv, kv.1 ≠ "_original_names") (default [] datasets) →
   ∃ c, DataCatalogOld.__init__ add_feed_dict datasets feed_dict dataset_patterns
          load_versions save_version default_pattern (DataCatalogOld.new_catalog h)
        = (Ok tt, c) ∧
        DataCatalogOld._datasets c = default [] datasets ∧
        DataCatalogOld._load_versions c = default [] load_versions ∧
        DataCatalogOld._save_version c = save_version ∧
        (∀ l o, h !! l = Some o → DataCatalogOld.heap c !! l = Some o) ∧
        _ipython_key_completions_ (DataCatalogOld.namespace c) =
          (Ok (default [] datasets).*1, DataCatalogOld.namespace c) ∧
        (∀ pre name dataset post name',
           default [] datasets = (pre ++ (name, dataset) :: post)%list →
           Forall (λ kv, _sub_nonword_chars kv.1 ≠ _sub_nonword_chars name) post →
           _sub_nonword_chars name' = _sub_nonword_chars name →
           __getitem__ name' (DataCatalogOld.namespace c) =
             (Ok dataset, DataCatalogOld.namespace c))).
Proof.
  intros Hfeed Hnd Hvals.
  set (items := default [] datasets) in *.
  split.
  - intros Hex.
    destruct (FrozenDatasetsMore.construct_dict_raises items h Hex Hvals) as [σ Hσ].
    unfold DataCatalogOld.__init__, DataCatalogOld.new_frozen_datasets.
    cbv [mbind eff_bind bind modify get]. simpl. fold items. rewrite Hσ. by eexists.
  - intros Hitems.
    unfold DataCatalogOld.__init__. cbv [mbind eff_bind bind modify get].
    cbn [DataCatalogOld.set_datasets DataCatalogOld._datasets]. fold items.
    rewrite (new_frozen_datasets_ok items _ Hitems).
    assert (Hend : match feed_dict with
                   | Some (_ :: _ as entries) => add_feed_dict entries
                   | _ => ret tt
                   end = ret tt).
    { destruct feed_dict as [[|]|]; done. }
    rewrite Hend. unfold ret. eexists. split; [done|].
    assert (Hattr : ∀ d, dict_after items {["_original_names" := d]} !! "_original_names"
                         = Some d).
    { intros d. rewrite FrozenDatasetsFacts.dict_after_other
        by by apply FrozenDatasetsMore.not_reserved_sanitised.
      by rewrite lookup_singleton_eq. }
    split_and!; try done.
    + intros l o Hl. simpl. rewrite lookup_insert_ne; [done|].
      intros <-. pose proof (is_fresh (dom h)) as Hf. apply Hf, elem_of_dom. by eexists.
    + unfold _ipython_key_completions_, getattr, dict_items, DataCatalogOld.namespace.
      cbv [mbind eff_bind bind gets ret]. simpl.
      rewrite Hattr. simpl. rewrite lookup_insert_eq.
      by rewrite od_keys_names_after_NoDup.
    + intros pre name dataset post name' Hsplit Hpost Hsame.
      unfold __getitem__, DataCatalogOld.namespace.
      cbv [mbind eff_bind bind gets ret]. simpl.
      rewrite Hsame, Hsplit, FrozenDatasetsFacts.dict_after_app.
      rewrite FrozenDatasetsFacts.dict_after_other by done.
      by rewrite lookup_insert_eq.
Qed.
End Init.

Lemma old_catalog_init_witness :
  (∃ c, DataCatalogOld.__init__ no_feed_dict (Some colliding) None None None None None
          (DataCatalogOld.new_catalog objects) = (Ok tt, c) ∧
        _ipython_key_completions_ (DataCatalogOld.namespace c) =
          (Ok ["a.b"; "cars"; "a b"], DataCatalogOld.namespace c) ∧
        __getitem__ "a.b" (DataCatalogOld.namespace c) =
          (Ok (PyRef 2%positive), DataCatalogOld.namespace c)) ∧
  (∃ c, DataCatalogOld.__init__ no_feed_dict (Some reserved) None None None None None
          (DataCatalogOld.new_catalog objects) = (Raise (Unsupported "__setitem__"), c)).
Proof.
  assert (Hobjects : ∀ v, v ∈ [PyRef 1%positive; PyRef 2%positive; PyRef 3%positive] →
                          not_a_dict objects v).
  { intros v Hv l ->.
    repeat (apply elem_of_cons in Hv as [[= ->]|Hv]; [by eexists|]).
    by apply elem_of_nil in Hv. }
  assert (Hc : Forall (λ kv : string * pyval, not_a_dict objects kv.2) colliding).
  { repeat constructor; apply Hobjects; simpl; set_solver. }
  assert (Hr : Forall (λ kv : string * pyval, not_a_dict objects kv.2) reserved).
  { repeat constructor; apply Hobjects; simpl; set_solver. }
  assert (Hndc : NoDup colliding.*1) by (apply (bool_decide_unpack _); by vm_compute).
  assert (Hndr : NoDup reserved.*1) by (apply (bool_decide_unpack _); by vm_compute).
  split.
  - destruct (proj2 (old_catalog_init no_feed_dict (Some colliding) None None None None None
                       objects eq_refl Hndc Hc))
      as (c & Hrun & _ & _ & _ & _ & Henum & Hget); [by repeat constructor|].
    exists c. split_and!; [done|done|].
    apply (Hget [("a.b", PyRef 1%positive); ("cars", PyRef 3%positive)]
             "a b" (PyRef 2%positive) [] "a.b"); [done|constructor|by vm_compute].
  - apply (proj1 (old_catalog_init no_feed_dict (Some reserved) None None None None None
                    objects eq_refl Hndr Hr)).
    right. by left.
Defined.

End DataCatalogOldFacts.

(** * Further properties of [KedroDataCatalog] *)

Module KedroDataCatalogMore.
Import KedroDataCatalog KedroDataCatalogRelease KedroDataCatalogFacts.
Import MoreExamples.

Section Facts.
Context `{Externals}.

Lemma missing_keys_Permutation c c' :
  _config c' = _config c →
  (∀ key, match_pattern c' key = match_pattern c key) →
  _load_versions c' ≡ₚ _load_versions c →
  missing_keys c' ≡ₚ missing_keys c.
Proof.
  intros Hconfig Hmatch Hperm. unfold missing_keys.
  assert (Hfilter : filter (λ key, ¬ is_known c' key) (od_keys (_load_versions c'))
                    = filter (λ key, ¬ is_known c key) (od_keys (_load_versions c'))).
  { apply list_filter_iff. intros key. unfold is_known. by rewrite Hconfig, Hmatch. }
  rewrite Hfilter. unfold od_keys. by rewrite Hperm.
Qed.

(** X10: the outcome of the validation does not depend on the order of
    [load_versions]: two catalogs with the same configuration and patterns
    whose [load_versions] have the same entries in different orders pass
    together or fail with the same message. *)
Theorem validate_order_independent (c c' : catalog) :
  _config c' = _config c →
  (∀ key, match_pattern c' key = match_pattern c key) →
  _load_versions c' ≡ₚ _load_versions c →
  (_validate_missing_keys c').1 = (_validate_missing_keys c).1.
Proof.
  intros Hconfig Hmatch Hperm.
  pose proof (missing_keys_Permutation c c' Hconfig Hmatch Hperm) as Hmissing.
  rewrite !validate_missing_keys_eq.
  assert (Hsorted : sorted (missing_keys c') = sorted (missing_keys c)).
  { destruct (PyFacts.sorted_spec (missing_keys c')) as [Hs Hp].
    apply PyFacts.sorted_unique; [done|]. by rewrite Hp. }
  destruct (missing_keys c') as [|k' ks'] eqn:E', (missing_keys c) as [|k ks] eqn:E.
  - done.
  - by apply Permutation_nil_cons in Hmissing.
  - symmetry in Hmissing. by apply Permutation_nil_cons in Hmissing.
  - simpl. unfold missing_keys_message. by rewrite Hsorted.
Qed.

(** The lookup of a version-aware cached dataset with a version. *)
Lemma get_dataset_copy_eq (c : catalog) ds_name suggest version cached d :
  _datasets c !! ds_name = Some cached →
  heap c !! cached = Some (ODataset d) →
  ds_versioned d = true →
  get_dataset ds_name suggest (Some version) c =
    (Ok (fresh (dom (heap c))),
     set_heap (insert (fresh (dom (heap c))) (ODataset (with_version d version))) c).
Proof.
  intros Hname Hobj Hver. unfold get_dataset. eff.
  rewrite (super_get_dataset_cached c ds_name suggest cached Hname).
  unfold is_versioned, _copy. eff. rewrite Hobj, Hver. by rewrite Hobj.
Qed.

Lemma get_dataset_raise (c c1 : catalog) ds_name suggest version e :
  super_get_dataset ds_name suggest c = (Raise e, c1) →
  get_dataset ds_name suggest version c = (Raise e, c1).
Proof. intros Hget. unfold get_dataset. eff. by rewrite Hget. Qed.

(** X11: when the lookup of the name fails, [get_dataset], [load], [confirm]
    and [release] fail with the error of the lookup and stop there: no copy
    is made, no dataset method is called, and [load] logs nothing. *)
Theorem lookup_failure_propagates
    (dataset_release : loc → Eff catalog unit) (name : string) (e : exn) (c c1 : catalog) :
  (∀ suggest version,
     super_get_dataset name suggest c = (Raise e, c1) →
     get_dataset name suggest version c = (Raise e, c1)) ∧
  (∀ version,
     super_get_dataset name true c = (Raise e, c1) →
     load name version c = (Raise e, c1)) ∧
  (super_get_dataset name true c = (Raise e, c1) →
   release dataset_release name c = (Raise e, c1)) ∧
  (super_get_dataset name true
     (log "INFO" ("Confirming dataset '" ++ name ++ "'") c).2 = (Raise e, c1) →
   confirm name c = (Raise e, c1)).
Proof.
  split_and!.
  - intros suggest version. apply get_dataset_raise.
  - intros version Hget. unfold load. eff.
    by rewrite (get_dataset_raise c c1 name true _ e Hget).
  - intros Hget. unfold release. eff.
    by rewrite (get_dataset_raise c c1 name true None e Hget).
  - intros Hget. unfold confirm. unfold log in *. eff. simpl in *.
    by rewrite (get_dataset_raise _ c1 name true None e Hget).
Qed.

(** X12: two lookups of a version-aware registered dataset with two versions
    return two different new objects, each the cached dataset with the
    version asked for; the second lookup does not change the first copy, and
    the cached object and the registry are as before. *)
Theorem get_dataset_two_versions (c : catalog) ds_name suggest1 suggest2 v1 v2 cached d :
  _datasets c !! ds_name = Some cached →
  heap c !! cached = Some (ODataset d) →
  ds_versioned d = true →
  ∃ copy1 copy2 c1 c2,
    get_dataset ds_name suggest1 (Some v1) c = (Ok copy1, c1) ∧
    get_dataset ds_name suggest2 (Some v2) c1 = (Ok copy2, c2) ∧
    copy1 ≠ copy2 ∧ copy1 ≠ cached ∧ copy2 ≠ cached ∧
    heap c2 !! copy1 = Some (ODataset (with_version d v1)) ∧
    heap c2 !! copy2 = Some (ODataset (with_version d v2)) ∧
    heap c2 !! cached = Some (ODataset d) ∧
    _datasets c2 = _datasets c.
Proof.
  intros Hname Hobj Hver.
  set (copy1 := fresh (dom (heap c))).
  set (c1 := set_heap (insert copy1 (ODataset (with_version d v1))) c).
  set (copy2 := fresh (dom (heap c1))).
  set (c2 := set_heap (insert copy2 (ODataset (with_version d v2))) c1).
  assert (Hf1 : heap c !! copy1 = None) by (apply not_elem_of_dom, is_fresh).
  assert (Hf2 : heap c1 !! copy2 = None) by (apply not_elem_of_dom, is_fresh).
  assert (Hobj1 : heap c1 !! cached = Some (ODataset d)).
  { simpl. rewrite lookup_insert_ne; [done|]. congruence. }
  assert (Hcopy1 : heap c1 !! copy1 = Some (ODataset (with_version d v1))).
  { simpl. by rewrite lookup_insert_eq. }
  exists copy1, copy2, c1, c2. split_and!.
  - by apply (get_dataset_copy_eq c ds_name suggest1 v1 cached d).
  - by apply (get_dataset_copy_eq c1 ds_name suggest2 v2 cached d).
  - congruence.
  - congruence.
  - congruence.
  - simpl. rewrite lookup_insert_ne; [|congruence]. by rewrite lookup_insert_eq.
  - simpl. by rewrite lookup_insert_eq.
  - simpl. rewrite lookup_insert_ne; [|congruence]. rewrite lookup_insert_ne; [done|congruence].
  - done.
Qed.


Lemma add_ok_eq (c : catalog) ds_name dataset replace :
  replace = true ∨ ds_name ∉ dom (_datasets c) →
  ∃ c', add ds_name dataset replace c = (Ok tt, c') ∧
        _datasets c' = <[ds_name := dataset]> (_datasets c) ∧
        _resolved_ds_configs c' = <[ds_name := []]> (_resolved_ds_configs c) ∧
        heap c' = heap c ∧
        _logger c' = (_logger c ++ if decide (ds_name ∈ dom (_datasets c))
                                   then [replacing_record ds_name] else [])%list.
Proof.
  intros Hok. unfold add. eff. case_decide as Hin.
  - destruct Hok as [->|Hout]; [|done]. simpl. eexists. split; [done|].
    by split_and!.
  - simpl. eexists. split; [done|]. split_and!; try done. simpl. by rewrite app_nil_r.
Qed.

(** X14: an [add] that succeeds changes the entry of the name and nothing
    else: the datasets and resolved configurations of the other names, the
    configuration and the heap are as before, and the logger receives one
    warning exactly when a registered name is replaced. *)
Theorem add_frame (c c' : catalog) ds_name dataset replace :
  add ds_name dataset replace c = (Ok tt, c') →
  (∀ k, k ≠ ds_name →
        _datasets c' !! k = _datasets c !! k ∧
        _resolved_ds_configs c' !! k = _resolved_ds_configs c !! k) ∧
  heap c' = heap c ∧ _config c' = _config c ∧
  _load_versions c' = _load_versions c ∧
  _logger c' = (_logger c ++ if decide (ds_name ∈ dom (_datasets c))
                             then [replacing_record ds_name] else [])%list.
Proof.
  intros Hadd.
  assert (Hok : replace = true ∨ ds_name ∉ dom (_datasets c)).
  { destruct replace; [by left|]. right. intros Hin.
    by rewrite add_registered in Hadd. }
  destruct (add_ok_eq c ds_name dataset replace Hok)
    as (c'' & Hadd' & Hds & Hcfg & Hheap & Hlog).
  rewrite Hadd in Hadd'. injection Hadd' as <-.
  destruct (add_installs c ds_name dataset replace Hok)
    as (c'' & Hadd'' & _ & _ & _ & Hconfig & Hlv & _).
  rewrite Hadd in Hadd''. injection Hadd'' as <-.
  split_and!; try done.
  intros k Hk. rewrite Hds, Hcfg. by rewrite !lookup_insert_ne.
Qed.

(** X15: after a name is added, adding it again without [replace] is refused
    and the first dataset stays; adding it again with [replace] succeeds,
    logs the warning and the second dataset is the one returned from then
    on. *)
Theorem add_twice (c : catalog) ds_name first second suggest :
  ds_name ∉ dom (_datasets c) →
  ∃ c1 c2,
    add ds_name first false c = (Ok tt, c1) ∧
    add ds_name second false c1 =
      (Raise (DatasetAlreadyExistsError (already_registered_message ds_name)), c1) ∧
    get_dataset ds_name suggest None c1 = (Ok first, c1) ∧
    add ds_name second true c1 = (Ok tt, c2) ∧
    get_dataset ds_name suggest None c2 = (Ok second, c2) ∧
    _logger c2 = (_logger c ++ [replacing_record ds_name])%list.
Proof.
  intros Hout.
  destruct (add_ok_eq c ds_name first false) as (c1 & Hadd1 & Hds1 & _ & _ & Hlog1);
    [by right|].
  assert (Hin : ds_name ∈ dom (_datasets c1)).
  { rewrite Hds1. apply elem_of_dom. rewrite lookup_insert_eq. by eexists. }
  destruct (add_ok_eq c1 ds_name second true) as (c2 & Hadd2 & Hds2 & _ & _ & Hlog2);
    [by left|].
  exists c1, c2. split_and!.
  - done.
  - by apply add_registered.
  - apply get_dataset_cached. rewrite Hds1. apply lookup_insert_eq.
  - done.
  - apply get_dataset_cached. rewrite Hds2. apply lookup_insert_eq.
  - rewrite Hlog2, Hlog1. rewrite (decide_True _ _ Hin), (decide_False _ _ Hout).
    by rewrite app_nil_r.
Qed.

(** X16: with [replace], [add_from_dict] never fails, whatever the mapping and
    the catalog: it registers every name of the mapping and keeps the names
    that were registered. *)
Theorem add_from_dict_replace datasets : ∀ c : catalog,
  ∃ c', add_from_dict datasets true c = (Ok tt, c') ∧
        dom (_datasets c') = dom (_datasets c) ∪ list_to_set datasets.*1.
Proof.
  induction datasets as [|[k v] ds IH]; intros c.
  { exists c. split; [done|]. simpl. by rewrite union_empty_r_L. }
  destruct (add_entry_eq true k v c) as (l & c1 & Hentry & _ & Hds1 & _).
  destruct (add_installs c1 k l true) as (c2 & Hadd & Hds2 & _); [by left|].
  destruct (IH c2) as (c' & Hrun & Hdom).
  exists c'. split.
  - unfold add_from_dict in *. cbn [for_each]. unfold bind at 1.
    by rewrite Hentry, Hadd.
  - rewrite Hdom, Hds2, Hds1, dom_insert_L, fmap_cons. simpl.
    by rewrite (comm_L (∪) {[k]} (dom (_datasets c))), <-(assoc_L (∪)).
Qed.

(** Without [replace], a mapping of new names is added whole. *)
Lemma add_from_dict_new datasets : ∀ c : catalog,
  NoDup datasets.*1 →
  (∀ k, k ∈ datasets.*1 → k ∉ dom (_datasets c)) →
  ∃ c', add_from_dict datasets false c = (Ok tt, c').
Proof.
  induction datasets as [|[k v] ds IH]; intros c Hnd Hnew; [by exists c|].
  rewrite fmap_cons in Hnd. apply NoDup_cons in Hnd as [Hk Hnd]. cbn [fst] in Hk.
  destruct (add_entry_eq false k v c) as (l & c1 & Hentry & _ & Hds1 & _).
  destruct (add_installs c1 k l false) as (c2 & Hadd & Hds2 & _).
  { right. rewrite Hds1. apply Hnew. rewrite fmap_cons. by left. }
  destruct (IH c2 Hnd) as (c' & Hrun).
  { intros k' Hk'. rewrite Hds2, Hds1, dom_insert_L.
    apply not_elem_of_union. split.
    - apply not_elem_of_singleton. congruence.
    - apply Hnew. rewrite fmap_cons. by right. }
  exists c'. unfold add_from_dict in *. cbn [for_each]. unfold bind at 1.
  by rewrite Hentry, Hadd.
Qed.

(** Without [replace], the first registered name of the mapping stops the
    call, with the error that names it. *)
Lemma add_from_dict_stops pre : ∀ (c : catalog) k v post,
  NoDup ((pre ++ (k, v) :: post)%list).*1 →
  (∀ k', k' ∈ pre.*1 → k' ∉ dom (_datasets c)) →
  k ∈ dom (_datasets c) →
  ∃ c', add_from_dict (pre ++ (k, v) :: post) false c =
          (Raise (DatasetAlreadyExistsError (already_registered_message k)), c').
Proof.
  induction pre as [|[k0 v0] pre IH]; intros c k v post Hnd Hnew Hin.
  - simpl. destruct (add_entry_eq false k v c) as (l & c1 & Hentry & _ & Hds1 & _).
    exists c1. unfold add_from_dict. cbn [for_each]. unfold bind at 1.
    rewrite Hentry, add_registered; [done|]. by rewrite Hds1.
  - change (((k0, v0) :: pre) ++ (k, v) :: post)%list
      with ((k0, v0) :: (pre ++ (k, v) :: post))%list in *.
    rewrite fmap_cons in Hnd. apply NoDup_cons in Hnd as [Hk0 Hnd]. cbn [fst] in Hk0.
    destruct (add_entry_eq false k0 v0 c) as (l & c1 & Hentry & _ & Hds1 & _).
    destruct (add_installs c1 k0 l false) as (c2 & Hadd & Hds2 & _).
    { right. rewrite Hds1. apply Hnew. rewrite fmap_cons. by left. }
    destruct (IH c2 k v post Hnd) as (c' & Hrun).
    + intros k' Hk'. rewrite Hds2, Hds1, dom_insert_L.
      apply not_elem_of_union. split.
      * apply not_elem_of_singleton. intros ->. apply Hk0.
        rewrite fmap_app. apply elem_of_app. by left.
      * apply Hnew. rewrite fmap_cons. by right.
    + rewrite Hds2, Hds1, dom_insert_L. apply elem_of_union. by right.
    + exists c'. unfold add_from_dict in *. cbn [for_each]. unfold bind at 1.
      by rewrite Hentry, Hadd.
Qed.

(** X17: without [replace], [add_from_dict] succeeds exactly when no name of
    the mapping is registered, and otherwise fails with the error that names
    the first name of the mapping that is registered. *)
Theorem add_from_dict_new_names (c : catalog) datasets :
  NoDup datasets.*1 →
  ((∃ c', add_from_dict datasets false c = (Ok tt, c')) ↔
   (∀ k, k ∈ datasets.*1 → k ∉ dom (_datasets c))) ∧
  (∀ pre k v post,
     datasets = (pre ++ (k, v) :: post)%list →
     (∀ k', k' ∈ pre.*1 → k' ∉ dom (_datasets c)) →
     k ∈ dom (_datasets c) →
     ∃ c', add_from_dict datasets false c =
             (Raise (DatasetAlreadyExistsError (already_registered_message k)), c')).
Proof.
  intros Hnd.
  assert (Hstop : ∀ pre k v post,
     datasets = (pre ++ (k, v) :: post)%list →
     (∀ k', k' ∈ pre.*1 → k' ∉ dom (_datasets c)) →
     k ∈ dom (_datasets c) →
     ∃ c', add_from_dict datasets false c =
             (Raise (DatasetAlreadyExistsError (already_registered_message k)), c')).
  { intros pre k v post -> Hnew Hin. by apply add_from_dict_stops. }
  split; [|exact Hstop]. split; [|by apply add_from_dict_new].
  intros [c' Hok] k Hk Hin.
  assert (Hfirst : ∃ pre k0 v0 post,
            datasets = (pre ++ (k0, v0) :: post)%list ∧
            (∀ k', k' ∈ pre.*1 → k' ∉ dom (_datasets c)) ∧ k0 ∈ dom (_datasets c)).
  { clear Hok Hstop Hnd. induction datasets as [|[k0 v0] ds IH]; [by apply elem_of_nil in Hk|].
    destruct (decide (k0 ∈ dom (_datasets c))) as [Hk0|Hk0].
    - exists [], k0, v0, ds. split_and!; [done| |done]. by intros ? ?%elem_of_nil.
    - rewrite fmap_cons in Hk. apply elem_of_cons in Hk as [->|Hk]; [done|].
      destruct (IH Hk) as (pre & k1 & v1 & post & -> & Hpre & Hk1).
      exists ((k0, v0) :: pre), k1, v1, post. split_and!; [done| |done].
      intros k' Hk'. rewrite fmap_cons in Hk'.
      apply elem_of_cons in Hk' as [->|Hk']; [done|by apply Hpre]. }
  destruct Hfirst as (pre & k0 & v0 & post & Hsplit & Hpre & Hk0).
  destruct (Hstop pre k0 v0 post Hsplit Hpre Hk0) as [c'' Hraise]. congruence.
Qed.

(** X18: [load] takes a version into account only if it is a non-empty string
    and the dataset is version-aware: an empty version is no version, and for
    a registered dataset that is not version-aware every version gives the
    load without version. *)
Theorem load_version_ignored (c : catalog) name :
  load name (Some "") c = load name None c ∧
  (∀ version cached d,
     _datasets c !! name = Some cached →
     heap c !! cached = Some (ODataset d) →
     ds_versioned d = false →
     load name version c = load name None c).
Proof.
  split; [done|].
  intros version cached d Hname Hobj Hver. unfold load.
  destruct (truthy_str version); [|done]. eff.
  assert (Hget : ∀ v, get_dataset name true v c = (Ok cached, c)).
  { intros v. unfold get_dataset. eff.
    rewrite (super_get_dataset_cached c name true cached Hname).
    unfold is_versioned. rewrite Hobj, Hver. by destruct v. }
  by rewrite !Hget.
Qed.

(** X19: [load] of a version-aware registered dataset with a non-empty
    version loads from a new copy of the dataset whose version is
    [Version(version, None)], after logging the class of the dataset; the
    cached dataset is not the one loaded from. *)
Theorem load_versioned (c : catalog) name version cached d :
  version ≠ "" →
  _datasets c !! name = Some cached →
  heap c !! cached = Some (ODataset d) →
  ds_versioned d = true →
  fresh (dom (heap c)) ≠ cached ∧
  load name (Some version) c =
    dataset_load (fresh (dom (heap c)))
      (log "INFO" ("Loading data from "
                   ++ (if _has_rich_handler then _format_rich name "dark_orange" else name)
                   ++ " (" ++ ds_type d ++ ")...")
         (set_heap
            (insert (fresh (dom (heap c)))
               (ODataset (with_version d
                  {| load_version := Some version; save_version := None |}))) c)).2.
Proof.
  intros Hv Hname Hobj Hver.
  assert (Hf : heap c !! fresh (dom (heap c)) = None) by (apply not_elem_of_dom, is_fresh).
  split; [congruence|].
  unfold load. simpl.
  assert (Htruthy : negb (String.eqb version "") = true).
  { destruct (String.eqb_spec version ""); done. }
  rewrite Htruthy. eff.
  rewrite (get_dataset_copy_eq c name true _ cached d Hname Hobj Hver).
  unfold type_name, log. eff. simpl. rewrite lookup_insert_eq. simpl.
  by destruct (dataset_load _ _) as [[] ?].
Qed.

End Facts.
End KedroDataCatalogMore.

Module KedroDataCatalogMoreExamples.
Import KedroDataCatalog KedroDataCatalogRelease KedroDataCatalogMore Examples MoreExamples.

Lemma validate_order_independent_witness :
  _load_versions versions_catalog_reversed ≠ _load_versions versions_catalog ∧
  (@_validate_missing_keys simple_externals versions_catalog_reversed).1 =
  (@_validate_missing_keys simple_externals versions_catalog).1.
Proof.
  split; [by vm_compute|].
  apply (@validate_order_independent simple_externals); [done|done|].
  apply reverse_Permutation.
Defined.

Lemma lookup_failure_propagates_witness :
  @load simple_externals "trains" None three_datasets =
    (Raise (DatasetNotFoundError "Dataset 'trains' not found in the catalog"),
     three_datasets) ∧
  @release simple_externals no_release "trains" three_datasets =
    (Raise (DatasetNotFoundError "Dataset 'trains' not found in the catalog"),
     three_datasets) ∧
  (@confirm simple_externals "trains" three_datasets).1 =
    Raise (DatasetNotFoundError "Dataset 'trains' not found in the catalog").
Proof.
  pose proof (@lookup_failure_propagates simple_externals no_release "trains"
                (DatasetNotFoundError "Dataset 'trains' not found in the catalog")
                three_datasets three_datasets) as (_ & Hload & Hrelease & _).
  pose proof (@lookup_failure_propagates simple_externals no_release "trains"
                (DatasetNotFoundError "Dataset 'trains' not found in the catalog")
                three_datasets
                (log "INFO" "Confirming dataset 'trains'" three_datasets).2)
    as (_ & _ & _ & Hconfirm).
  split_and!.
  - by apply Hload.
  - by apply Hrelease.
  - by rewrite Hconfirm.
Defined.

Lemma get_dataset_two_versions_witness :
  ∃ copy1 copy2 c1 c2,
    @get_dataset simple_externals "cars" true (Some v2024) three_datasets = (Ok copy1, c1) ∧
    @get_dataset simple_externals "cars" true (Some v2025) c1 = (Ok copy2, c2) ∧
    copy1 ≠ copy2 ∧
    heap c2 !! copy1 = Some (ODataset (with_version (csv_dataset "cars.csv") v2024)) ∧
    heap c2 !! copy2 = Some (ODataset (with_version (csv_dataset "cars.csv") v2025)) ∧
    heap c2 !! 1%positive = Some (ODataset (csv_dataset "cars.csv")).
Proof.
  destruct (@get_dataset_two_versions simple_externals three_datasets "cars" true true
              v2024 v2025 1%positive (csv_dataset "cars.csv"))
    as (copy1 & copy2 & c1 & c2 & H1 & H2 & Hne & _ & _ & Hc1 & Hc2 & Hcached & _);
    [by vm_compute..|].
  by exists copy1, copy2, c1, c2.
Defined.


Lemma add_frame_witness :
  _datasets (add "bikes" 2%positive false three_datasets).2 !! "cars" = Some 1%positive ∧
  _logger (add "bikes" 2%positive false three_datasets).2 = [] ∧
  _logger (add "cars" 2%positive true three_datasets).2 =
    [("WARNING", "Replacing dataset 'cars'")].
Proof.
  destruct (add_frame three_datasets (add "bikes" 2%positive false three_datasets).2
              "bikes" 2%positive false) as (Hother & _ & _ & _ & Hlog); [by vm_compute|].
  destruct (add_frame three_datasets (add "cars" 2%positive true three_datasets).2
              "cars" 2%positive true) as (_ & _ & _ & _ & Hlog'); [by vm_compute|].
  split_and!.
  - etrans; [apply (Hother "cars"); done|]. by vm_compute.
  - etrans; [exact Hlog|]. by vm_compute.
  - etrans; [exact Hlog'|]. by vm_compute.
Defined.

Lemma add_twice_witness :
  ∃ c1 c2,
    add "bikes" 1%positive false three_datasets = (Ok tt, c1) ∧
    add "bikes" 2%positive false c1 =
      (Raise (DatasetAlreadyExistsError "Dataset 'bikes' has already been registered"), c1) ∧
    @get_dataset simple_externals "bikes" true None c1 = (Ok 1%positive, c1) ∧
    add "bikes" 2%positive true c1 = (Ok tt, c2) ∧
    @get_dataset simple_externals "bikes" true None c2 = (Ok 2%positive, c2).
Proof.
  destruct (@add_twice simple_externals three_datasets "bikes" 1%positive 2%positive true)
    as (c1 & c2 & H1 & H2 & H3 & H4 & H5 & _).
  { apply not_elem_of_dom. by vm_compute. }
  by exists c1, c2.
Defined.

Lemma add_from_dict_new_names_witness :
  ∃ c', add_from_dict mapping false three_datasets =
          (Raise (DatasetAlreadyExistsError "Dataset 'parts' has already been registered"),
           c').
Proof.
  assert (Hnd : NoDup mapping.*1) by (apply (bool_decide_unpack _); by vm_compute).
  apply (proj2 (add_from_dict_new_names three_datasets mapping Hnd)
           [("m", PyInt 42); ("fleet", PyRef 1%positive)] "parts" (PyStr "again")
           [("never", PyNone)]).
  - done.
  - intros k' Hk'. apply not_elem_of_dom.
    repeat (apply elem_of_cons in Hk' as [->|Hk']; [by vm_compute|]).
    by apply elem_of_nil in Hk'.
  - apply elem_of_dom. exists 3%positive. by vm_compute.
Defined.

Lemma load_version_ignored_witness :
  @load simple_externals "seven" (Some "2024-01-01T00.00.00.000Z") three_datasets =
  @load simple_externals "seven" None three_datasets.
Proof.
  apply (proj2 (@load_version_ignored simple_externals three_datasets "seven")
           _ 2%positive (memory_dataset (PyInt 7))); by vm_compute.
Defined.

Lemma load_versioned_witness :
  (@load simple_externals "cars" (Some "2024-01-01T00.00.00.000Z") three_datasets).1 =
    Raise (External "load") ∧
  heap (@load simple_externals "cars" (Some "2024-01-01T00.00.00.000Z") three_datasets).2
    !! 4%positive = Some (ODataset (with_version (csv_dataset "cars.csv") v2024)) ∧
  _logger (@load simple_externals "cars" (Some "2024-01-01T00.00.00.000Z")
             three_datasets).2 =
    [("INFO", "Loading data from cars (CSVDataset)...")].
Proof.
  destruct (@load_versioned simple_externals three_datasets "cars"
              "2024-01-01T00.00.00.000Z" 1%positive (csv_dataset "cars.csv"))
    as [_ Hload]; [done|by vm_compute..|].
  rewrite Hload. by vm_compute.
Defined.

End KedroDataCatalogMoreExamples.
